(** * Snyk Collections Manager: a shallow embedding of
      [snyk_collections_manager.py] and the properties of its
      pagination and collection-reconciliation logic.

    The script talks to a remote REST API through the [requests] library,
    prints diagnostics and optionally writes a file.  The embedding keeps
    the program's control flow as it is written and threads an explicit
    world through it: the state of the outside (remote service, file
    system, clock), the list of external calls made so far, and the lines
    printed so far. *)

From Stdlib Require Import String Ascii List ZArith Bool Arith Lia DecimalString.
Import ListNotations.

Local Open Scope string_scope.
Local Open Scope list_scope.

Set Warnings "-register-all".

(** ** Python values

    Everything the script handles is either a string it built itself or a
    value decoded from a JSON body; [pyval] is the usual JSON tree.  A
    dictionary keeps its insertion order, as Python's does. *)

Inductive pyval : Type :=
| VNone
| VBool (b : bool)
| VNum (z : Z)
| VStr (s : string)
| VList (items : list pyval)
| VDict (fields : list (string * pyval)).

(** An f-string: the concatenation of its pieces. *)
Definition fstring (parts : list string) : string :=
  String.concat EmptyString parts.

(** [bool(v)]: what [if v:] tests. *)
Definition truthy (v : pyval) : bool :=
  match v with
  | VNone => false
  | VBool b => b
  | VNum z => negb (Z.eqb z 0)
  | VStr s => negb (String.eqb s EmptyString)
  | VList items => negb (Nat.eqb (List.length items) 0)
  | VDict fields => negb (Nat.eqb (List.length fields) 0)
  end.

(** An optional command-line string ([None] or a [str]) as a value and
    as a string, and its truth value. *)
Definition arg_value (arg : option string) : pyval :=
  match arg with
  | Some s => VStr s
  | None => VNone
  end.

Definition opt_string (arg : option string) : string :=
  match arg with
  | Some s => s
  | None => EmptyString
  end.


Definition truthy_opt (o : option string) : bool :=
  match o with
  | None => false
  | Some s => negb (String.eqb s EmptyString)
  end.

(** Key lookup in a dictionary. *)
Fixpoint lookup (k : string) (fields : list (string * pyval)) : option pyval :=
  match fields with
  | [] => None
  | (k', v) :: rest => if String.eqb k k' then Some v else lookup k rest
  end.

(** [v == s] for a value [v] and a [str] [s]: only an equal string is
    equal to a string. *)
Definition eq_str (v : pyval) (s : string) : bool :=
  match v with
  | VStr s' => String.eqb s' s
  | _ => false
  end.

(** The elements [for x in v] ranges over, if [v] is iterable: the items
    of a list, the keys of a dictionary, the characters of a string.  A
    string is a sequence of bytes here, so a string with characters
    outside ASCII is walked byte by byte where Python walks it character
    by character; the listings expect a list under [data], and nothing
    below depends on the walk of a string. *)
Definition py_iter (v : pyval) : option (list pyval) :=
  match v with
  | VList items => Some items
  | VDict fields => Some (map (fun kv => VStr (fst kv)) fields)
  | VStr s => Some (map (fun c => VStr (String c EmptyString)) (list_ascii_of_string s))
  | _ => None
  end.

(** ** Exceptions and outcomes *)

(** A [requests.exceptions.RequestException]: its message and, when the
    failure carries a response, that response's status code and text. *)
Record request_error : Type := mkRequestError {
  err_text : string;
  err_response : option (Z * string)
}.

Definition status_code (e : request_error) : option Z :=
  option_map fst (err_response e).

Inductive exn : Type :=
| RequestException (e : request_error)
| SystemExit (code : Z)
| AttributeError
| TypeError
| KeyError (key : string)
| OtherError (text : string).

(** What running a piece of the script gives: a value, an exception on
    its way up, or no answer within the allotted number of loop
    iterations. *)
Inductive outcome (A : Type) : Type :=
| Return (a : A)
| Raise (e : exn)
| Diverge.

Arguments Return {A} a.
Arguments Raise {A} e.
Arguments Diverge {A}.

(** What a call into [requests] gives.  [requests.get]/[requests.post],
    [response.raise_for_status()] and [response.json()] are taken
    together: either one of them raises a [RequestException] (transport
    failure, 4xx/5xx status, undecodable body), or the decoded body is
    delivered. *)
Inductive http_result : Type :=
| HttpError (e : request_error)
| HttpOk (body : pyval).

(** What reading the configuration file gives. *)
Inductive config_result : Type :=
| ConfigNotFound
| ConfigDecodeError (text : string)
| ConfigLoaded (v : pyval)
| ConfigOtherError (text : string).

Definition headers_t : Type := list (string * string).

(** What the process does that can be observed from outside, in the
    order it does it: lines printed, HTTP requests sent, files written,
    the configuration file read. *)
Inductive event : Type :=
| Print (line : string)
| CallGet (url : pyval) (headers : headers_t)
| CallPost (url : pyval) (headers : headers_t) (payload : pyval)
| CallWrite (path : string) (lines : list string)
| CallReadConfig (path : string).

Definition is_write (ev : event) : bool :=
  match ev with CallWrite _ _ => true | _ => false end.

Definition is_post (ev : event) : bool :=
  match ev with CallPost _ _ _ => true | _ => false end.

Definition is_print (ev : event) : bool :=
  match ev with Print _ => true | _ => false end.

(** The HTTP requests and file accesses of a trace, without the printing. *)
Definition calls (t : list event) : list event :=
  filter (fun ev => negb (is_print ev)) t.

Arguments calls : simpl never.

(** The manager object: [self]. *)
Record SnykCollectionsManager : Type := mkManager {
  api_token : pyval;
  org_id : pyval;
  base_url : string;
  api_version : string;
  headers : headers_t
}.

(** Parsed command line. *)
Record Args : Type := mkArgs {
  arg_prefix : string;
  arg_collection : string;
  arg_output : option string;
  arg_token : option string;
  arg_org : option string;
  arg_config : string;
  arg_dry_run : bool
}.

(** Exit status of the process, from the outcome of [main]: falling off
    the end is 0, [sys.exit(c)] is [c], an uncaught exception is 1. *)
Definition exit_code (o : outcome unit) : option Z :=
  match o with
  | Return _ => Some 0%Z
  | Raise (SystemExit c) => Some c
  | Raise _ => Some 1%Z
  | Diverge => None
  end.

(** The outcome of a run, without the state and the trace. *)
Definition outcome_of {A E T : Type} (r : outcome A * E * T) : outcome A := fst (fst r).

(** ** The outside world and the monad of the script *)

(** Everything outside the process: the remote service, the file
    system, the clock.  [Env] is its state; the script reaches it only
    through the operations below, each of which may change it. *)
Class Outside : Type := {
  Env : Type;
  (** [requests.get(url, headers=...)], checked and decoded. *)
  requests_get : pyval -> headers_t -> Env -> http_result * Env;
  (** [requests.post(url, headers=..., json=payload)], checked and decoded. *)
  requests_post : pyval -> headers_t -> pyval -> Env -> http_result * Env;
  (** [open(path, 'w')] followed by the writes of the given lines: [None]
      when all went well, the exception's message otherwise. *)
  write_lines : string -> list string -> Env -> option string * Env;
  (** [open(path, 'r')] followed by [json.load]. *)
  read_config : string -> Env -> config_result * Env;
  (** [int(time.time())]. *)
  time_time : Env -> Z * Env;
  (** [str(v)], the text a value has inside an f-string. *)
  py_str : pyval -> string
}.

Section Script.

Context {outside : Outside}.

(** A piece of the script: from the state of the outside, an outcome,
    the new state of the outside, and the events that took place. *)
Definition M (A : Type) : Type := Env -> outcome A * Env * list event.

Definition ret {A : Type} (a : A) : M A := fun e => (Return a, e, []).

Definition bind {A B : Type} (m : M A) (k : A -> M B) : M B :=
  fun e =>
    match m e with
    | (Return a, e1, t1) =>
        match k a e1 with
        | (o, e2, t2) => (o, e2, t1 ++ t2)
        end
    | (Raise x, e1, t1) => (Raise x, e1, t1)
    | (Diverge, e1, t1) => (Diverge, e1, t1)
    end.

Definition raise {A : Type} (x : exn) : M A := fun e => (Raise x, e, []).

Definition diverge {A : Type} : M A := fun e => (Diverge, e, []).

(** [sys.exit(code)]. *)
Definition sys_exit {A : Type} (code : Z) : M A := raise (SystemExit code).

(** [try: body except requests.exceptions.RequestException as e: handler]. *)
Definition try_except {A : Type} (body : M A) (handler : request_error -> M A) : M A :=
  fun e =>
    match body e with
    | (Raise (RequestException x), e1, t1) =>
        match handler x e1 with
        | (o, e2, t2) => (o, e2, t1 ++ t2)
        end
    | r => r
    end.

Notation "x <- m ;; k" := (bind m (fun x => k))
  (at level 61, m at next level, right associativity).
Notation "m ;;; k" := (bind m (fun _ => k))
  (at level 61, right associativity).

Definition print (line : string) : M unit :=
  fun e => (Return tt, e, [Print line]).

(** [if c: m], with no [else]. *)
Definition when (c : bool) (m : M unit) : M unit := if c then m else ret tt.

Definition http_get (url : pyval) (hs : headers_t) : M pyval :=
  fun e =>
    match requests_get url hs e with
    | (HttpError x, e1) => (Raise (RequestException x), e1, [CallGet url hs])
    | (HttpOk body, e1) => (Return body, e1, [CallGet url hs])
    end.

Definition http_post (url : pyval) (hs : headers_t) (payload : pyval) : M pyval :=
  fun e =>
    match requests_post url hs payload e with
    | (HttpError x, e1) => (Raise (RequestException x), e1, [CallPost url hs payload])
    | (HttpOk body, e1) => (Return body, e1, [CallPost url hs payload])
    end.

Definition file_write (path : string) (lines : list string) : M (option string) :=
  fun e =>
    match write_lines path lines e with
    | (r, e1) => (Return r, e1, [CallWrite path lines])
    end.

Definition config_read (path : string) : M config_result :=
  fun e =>
    match read_config path e with
    | (r, e1) => (Return r, e1, [CallReadConfig path])
    end.

Definition now : M Z :=
  fun e =>
    match time_time e with
    | (t, e1) => (Return t, e1, [])
    end.

(** [v.get(key, default)]: only a dictionary has [get]. *)
Definition py_get (v : pyval) (key : string) (default : pyval) : M pyval :=
  match v with
  | VDict fields =>
      match lookup key fields with
      | Some x => ret x
      | None => ret default
      end
  | _ => raise AttributeError
  end.

(** [v[key]] for a string key. *)
Definition py_subscript (v : pyval) (key : string) : M pyval :=
  match v with
  | VDict fields =>
      match lookup key fields with
      | Some x => ret x
      | None => raise (KeyError key)
      end
  | _ => raise TypeError
  end.

(** [acc.extend(v)]. *)
Definition py_extend (acc : list pyval) (v : pyval) : M (list pyval) :=
  match py_iter v with
  | Some items => ret (acc ++ items)
  | None => raise TypeError
  end.

(** [len(l)] inside an f-string. *)
Definition str_len {A : Type} (l : list A) : string :=
  py_str (VNum (Z.of_nat (List.length l))).

(** The fifty dashes of [print("-" * 50)]. *)
Definition dashes : string := string_of_list_ascii (repeat "-"%char 50).

(** [len(v)] for a value that came out of a JSON body. *)
Definition py_len (v : pyval) : M nat :=
  match py_iter v with
  | Some items => ret (List.length items)
  | None => raise TypeError
  end.

Definition str_nat (n : nat) : string := py_str (VNum (Z.of_nat n)).

Definition newline : string := String (ascii_of_nat 10) EmptyString.

(** ** The manager *)

(** [SnykCollectionsManager.__init__]. *)
Definition init (api_token org_id : pyval) : SnykCollectionsManager :=
  mkManager api_token org_id
    "https://api.snyk.io/rest"
    "2024-10-15"
    [("Authorization", fstring ["token "; py_str api_token]);
     ("Content-Type", "application/vnd.api+json");
     ("Accept", "application/vnd.api+json")].

Definition projects_url (self : SnykCollectionsManager) (name_prefix : string) : string :=
  fstring [base_url self; "/orgs/"; py_str (org_id self); "/projects?version=";
           api_version self; "&names_start_with="; name_prefix].

Definition collections_url (self : SnykCollectionsManager) : string :=
  fstring [base_url self; "/orgs/"; py_str (org_id self); "/collections?version=";
           api_version self].

Definition relationships_url (self : SnykCollectionsManager) (collection_id : pyval) : string :=
  fstring [base_url self; "/orgs/"; py_str (org_id self); "/collections/";
           py_str collection_id; "/relationships/projects?version="; api_version self].

(** *** Paginated listing

    The [while url:] loops of [get_projects_by_name_prefix] and
    [get_collections] are the same text up to the noun in their
    messages ("projects" / "collections"); [fetch_pages] is that loop,
    with the noun as a parameter.  [fuel] bounds the number of pages
    fetched: the loop itself has no bound. *)
Fixpoint fetch_pages (noun : string) (fuel : nat) (self : SnykCollectionsManager)
    (url : pyval) (acc : list pyval) : M (list pyval) :=
  if truthy url then
    match fuel with
    | O => diverge
    | S fuel' =>
        print (fstring ["Fetching "; noun; " from: "; py_str url]) ;;;
        data <- http_get url (headers self) ;;
        page_data <- py_get data "data" (VList []) ;;
        acc' <- py_extend acc page_data ;;
        links <- py_get data "links" (VDict []) ;;
        url' <- py_get links "next" VNone ;;
        (if truthy url' then
           n <- py_len page_data ;;
           print (fstring ["Found "; str_nat n; " "; noun;
                           " on this page, continuing to next page..."])
         else ret tt) ;;;
        fetch_pages noun fuel' self url' acc'
    end
  else ret acc.

(** The [for ... in ...: print(f"  - {name} (ID: {id})")] loop that ends
    both listings. *)
Fixpoint print_entries (entries : list pyval) : M unit :=
  match entries with
  | [] => ret tt
  | entry :: rest =>
      attributes <- py_get entry "attributes" (VDict []) ;;
      entry_name <- py_get attributes "name" (VStr "Unknown") ;;
      entry_id <- py_get entry "id" (VStr "Unknown") ;;
      print (fstring ["  - "; py_str entry_name; " (ID: "; py_str entry_id; ")"]) ;;;
      print_entries rest
  end.

(** The [try:] block of [get_projects_by_name_prefix]. *)
Definition get_projects_try (fuel : nat) (self : SnykCollectionsManager)
    (name_prefix : string) : M (list pyval) :=
  projects <- fetch_pages "projects" fuel self (VStr (projects_url self name_prefix)) [] ;;
  print (fstring ["Found "; str_len projects; " projects matching prefix '"; name_prefix; "'"]) ;;;
  print_entries projects ;;;
  ret projects.

Definition get_projects_except (e : request_error) : M (list pyval) :=
  print (fstring ["Error retrieving projects: "; err_text e]) ;;;
  match status_code e with
  | Some code =>
      if Z.eqb code 404 then
        print "⚠️  Projects endpoint not found. This organization may not have projects yet."
      else if Z.eqb code 401 then
        print "⚠️  Unauthorized. Please check your API token and organization ID."
      else if Z.eqb code 403 then
        print "⚠️  Forbidden. You may not have permission to access projects."
      else ret tt
  | None => ret tt
  end ;;;
  ret [].

Definition get_projects_by_name_prefix (fuel : nat) (self : SnykCollectionsManager)
    (name_prefix : string) : M (list pyval) :=
  print (fstring ["Retrieving projects with name prefix: '"; name_prefix; "'"]) ;;;
  try_except (get_projects_try fuel self name_prefix) get_projects_except.

(** The [try:] block of [get_collections]. *)
Definition get_collections_try (fuel : nat) (self : SnykCollectionsManager) : M (list pyval) :=
  collections <- fetch_pages "collections" fuel self (VStr (collections_url self)) [] ;;
  print (fstring ["Found "; str_len collections; " existing collections"]) ;;;
  print_entries collections ;;;
  ret collections.

Definition get_collections_except (e : request_error) : M (list pyval) :=
  print (fstring ["Error retrieving collections: "; err_text e]) ;;;
  match status_code e with
  | Some code =>
      if Z.eqb code 404 then
        print "⚠️  Collections are not available for this organization (404 Not Found)" ;;;
        print "   Collections might be a premium feature or not enabled." ;;;
        print "   The script cannot proceed without collections support."
      else if Z.eqb code 401 then
        print "⚠️  Unauthorized. Please check your API token and organization ID."
      else if Z.eqb code 403 then
        print "⚠️  Forbidden. You may not have permission to access collections."
      else ret tt
  | None => ret tt
  end ;;;
  ret [].

Definition get_collections (fuel : nat) (self : SnykCollectionsManager) : M (list pyval) :=
  print "Retrieving existing collections..." ;;;
  try_except (get_collections_try fuel self) get_collections_except.

(** *** Matching by name *)

(** The [for collection in collections:] scan of
    [find_collection_by_name]; [VNone] is Python's [None]. *)
Fixpoint find_in_collections (collections : list pyval) (collection_name : string) : M pyval :=
  match collections with
  | [] => ret VNone
  | collection :: rest =>
      attributes <- py_get collection "attributes" (VDict []) ;;
      entry_name <- py_get attributes "name" VNone ;;
      if eq_str entry_name collection_name then ret collection
      else find_in_collections rest collection_name
  end.

Definition find_collection_by_name (fuel : nat) (self : SnykCollectionsManager)
    (collection_name : string) : M pyval :=
  collections <- get_collections fuel self ;;
  find_in_collections collections collection_name.

(** *** Creating a collection and attaching projects *)

(** [if project_ids:] for the optional list argument of
    [create_collection]. *)
Definition ids_given (project_ids : option (list pyval)) : bool :=
  match project_ids with
  | None => false
  | Some ids => truthy (VList ids)
  end.

Definition ids_or_nil (project_ids : option (list pyval)) : list pyval :=
  match project_ids with
  | None => []
  | Some ids => ids
  end.

(** [[{'id': project_id, 'type': 'project'} for project_id in project_ids]]. *)
Definition project_refs (project_ids : list pyval) : pyval :=
  VList (map (fun project_id => VDict [("id", project_id); ("type", VStr "project")])
             project_ids).

(** The body of a creation request: the name alone, or the name and the
    projects as an inline relationship. *)
Definition create_payload (collection_name : string) (project_ids : option (list pyval)) : pyval :=
  let base := [("type", VStr "collection");
               ("attributes", VDict [("name", VStr collection_name)])] in
  if ids_given project_ids then
    VDict [("data",
            VDict (base ++
                   [("relationships",
                     VDict [("projects",
                             VDict [("data", project_refs (ids_or_nil project_ids))])])]))]
  else
    VDict [("data", VDict base)].

(** [create_collection] calls itself at most once, from its [except]
    branch and without projects; [depth] bounds that nesting. *)
Fixpoint create_collection_rec (depth : nat) (self : SnykCollectionsManager)
    (collection_name : string) (project_ids : option (list pyval)) : M pyval :=
  match depth with
  | O => diverge
  | S depth' =>
      (if ids_given project_ids then
         print (fstring ["Creating collection '"; collection_name; "' with ";
                         str_len (ids_or_nil project_ids); " projects..."])
       else
         print (fstring ["Creating collection: '"; collection_name; "'"])) ;;;
      let url := VStr (collections_url self) in
      let payload := create_payload collection_name project_ids in
      try_except
        (collection_data <- http_post url (headers self) payload ;;
         collection <- py_get collection_data "data" (VDict []) ;;
         collection_id <- py_get collection "id" (VStr "Unknown") ;;
         (if ids_given project_ids then
            print (fstring ["Successfully created collection '"; collection_name; "' with ";
                            str_len (ids_or_nil project_ids); " projects (ID: ";
                            py_str collection_id; ")"])
          else
            print (fstring ["Successfully created collection '"; collection_name; "' (ID: ";
                            py_str collection_id; ")"])) ;;;
         ret collection)
        (fun e =>
           print (fstring ["Error creating collection: "; err_text e]) ;;;
           match err_response e with
           | Some (code, text) =>
               print (fstring ["Response status: "; py_str (VNum code)]) ;;;
               print (fstring ["Response body: "; text])
           | None => ret tt
           end ;;;
           if ids_given project_ids then
             print "Falling back to creating collection without projects..." ;;;
             create_collection_rec depth' self collection_name None
           else
             sys_exit 1)
  end.

Definition create_collection (self : SnykCollectionsManager)
    (collection_name : string) (project_ids : option (list pyval)) : M pyval :=
  create_collection_rec 2 self collection_name project_ids.

Definition attach_payload (project_ids : list pyval) : pyval :=
  VDict [("data", project_refs project_ids)].

Definition add_projects_to_collection (self : SnykCollectionsManager)
    (collection_id : pyval) (project_ids : list pyval) (collection_name : string) : M bool :=
  if negb (truthy (VList project_ids)) then
    print "No projects to add to collection" ;;;
    ret true
  else
    print (fstring ["Adding "; str_len project_ids; " projects to collection..."]) ;;;
    let url := VStr (relationships_url self collection_id) in
    let payload := attach_payload project_ids in
    try_except
      (http_post url (headers self) payload ;;;
       print (fstring ["Successfully added "; str_len project_ids; " projects to collection"]) ;;;
       ret true)
      (fun e =>
         print (fstring ["Error adding projects to collection: "; err_text e]) ;;;
         match err_response e with
         | Some (code, text) =>
             print (fstring ["Response status: "; py_str (VNum code)]) ;;;
             print (fstring ["Response body: "; text])
         | None => ret tt
         end ;;;
         ret false).

(** *** Extraction and reporting *)

(** [[project['id'] for project in projects]]. *)
Fixpoint ids_of (projects : list pyval) : M (list pyval) :=
  match projects with
  | [] => ret []
  | project :: rest =>
      project_id <- py_subscript project "id" ;;
      ids <- ids_of rest ;;
      ret (project_id :: ids)
  end.

(** [for i, project_id in enumerate(project_ids, i): print(...)]. *)
Fixpoint print_numbered (i : Z) (project_ids : list pyval) : M unit :=
  match project_ids with
  | [] => ret tt
  | project_id :: rest =>
      print (fstring ["  "; py_str (VNum i); ". "; py_str project_id]) ;;;
      print_numbered (i + 1) rest
  end.

Definition extract_project_ids (fuel : nat) (self : SnykCollectionsManager)
    (name_prefix : string) : M (list pyval) :=
  print (fstring ["Extracting project IDs with name prefix: '"; name_prefix; "'"]) ;;;
  projects <- get_projects_by_name_prefix fuel self name_prefix ;;
  project_ids <- ids_of projects ;;
  print (fstring ["Extracted "; str_len project_ids; " project IDs:"]) ;;;
  print_numbered 1 project_ids ;;;
  ret project_ids.

(** The lines [save_project_ids] writes: one id per line. *)
Definition id_lines (project_ids : list pyval) : list string :=
  map (fun project_id => fstring [py_str project_id; newline]) project_ids.

Definition save_project_ids (self : SnykCollectionsManager)
    (project_ids : list pyval) (output_file : option string) : M unit :=
  path <- (if negb (truthy_opt output_file) then
             t <- now ;;
             ret (fstring ["project_ids_"; py_str (VNum t); ".txt"])
           else ret (opt_string output_file)) ;;
  r <- file_write path (id_lines project_ids) ;;
  match r with
  | None => print (fstring ["Project IDs saved to: "; path])
  | Some msg => print (fstring ["Error saving project IDs to file: "; msg])
  end.

(** The test of step 2,
    [collections is None or (isinstance(collections, list)
       and len(collections) == 0 and not collections)],
    on the list [get_collections] returned. *)
Definition collections_unavailable (collections : list pyval) : bool :=
  false || (true && Nat.eqb (List.length collections) 0 && negb (truthy (VList collections))).

Definition process_projects_and_collection (fuel : nat) (self : SnykCollectionsManager)
    (project_name_prefix collection_name : string) (output_file : option string)
    : M (list pyval) :=
  print "Starting Snyk Collections Manager" ;;;
  print (fstring ["Organization ID: "; py_str (org_id self)]) ;;;
  print (fstring ["Project name prefix: '"; project_name_prefix; "'"]) ;;;
  print (fstring ["Collection name: '"; collection_name; "'"]) ;;;
  print dashes ;;;
  (* Step 1: Extract project IDs *)
  project_ids <- extract_project_ids fuel self project_name_prefix ;;
  if negb (truthy (VList project_ids)) then
    print dashes ;;;
    print (fstring ["No projects found with prefix '"; project_name_prefix; "'"]) ;;;
    ret []
  else
    (* Step 2: Check if collections are available *)
    collections <- get_collections fuel self ;;
    if collections_unavailable collections then
      print "❌ Collections are not available for this organization." ;;;
      print "   This could be because:" ;;;
      print "   1. Collections are a premium feature" ;;;
      print "   2. Collections are not enabled for your organization" ;;;
      print "   3. Your organization type doesn't support collections" ;;;
      print "   Please contact Snyk support or upgrade your plan to use collections." ;;;
      ret project_ids
    else
      (* Step 3: Check if collection exists, create if not *)
      found <- find_collection_by_name fuel self collection_name ;;
      collection_success <-
        (if negb (truthy found) then
           collection <- create_collection self collection_name (Some project_ids) ;;
           collection_id <- py_subscript collection "id" ;;
           success <- add_projects_to_collection self collection_id project_ids collection_name ;;
           ret (collection, success)
         else
           collection_id <- py_subscript found "id" ;;
           print (fstring ["Collection '"; collection_name; "' already exists (ID: ";
                           py_str collection_id; ")"]) ;;;
           collection_id <- py_subscript found "id" ;;
           success <- add_projects_to_collection self collection_id project_ids collection_name ;;
           ret (found, success)) ;;
      let (collection, success) := collection_success : pyval * bool in
      if success then
        print dashes ;;;
        print (fstring ["Successfully processed "; str_len project_ids; " projects"]) ;;;
        collection_id <- py_get collection "id" (VStr "Unknown") ;;
        print (fstring ["Collection: "; collection_name; " (ID: "; py_str collection_id; ")"]) ;;;
        when (truthy_opt output_file) (save_project_ids self project_ids output_file) ;;;
        ret project_ids
      else
        print dashes ;;;
        print "Failed to add projects to collection" ;;;
        ret project_ids.

(** ** Configuration and [main] *)

Definition load_config (config_file : string) : M pyval :=
  r <- config_read config_file ;;
  match r with
  | ConfigLoaded v => ret v
  | ConfigNotFound =>
      print (fstring ["Configuration file '"; config_file; "' not found."]) ;;;
      print "Please create a config.json file with your Snyk API token and organization ID." ;;;
      sys_exit 1
  | ConfigDecodeError text =>
      print (fstring ["Error parsing configuration file: "; text]) ;;;
      sys_exit 1
  | ConfigOtherError text => raise (OtherError text)
  end.

(** [arg or config.get(key)]: the configuration is consulted only when
    the command-line value is missing or empty. *)
Definition arg_or_config (arg : option string) (config : pyval) (key : string) : M pyval :=
  if truthy_opt arg then ret (arg_value arg) else py_get config key VNone.

(** Lines 469-475 of [main]: where the token and the organization id
    come from. *)
Definition resolve_credentials (args : Args) : M (pyval * pyval) :=
  if negb (truthy_opt (arg_token args)) || negb (truthy_opt (arg_org args)) then
    config <- load_config (arg_config args) ;;
    token <- arg_or_config (arg_token args) config "api_token" ;;
    org <- arg_or_config (arg_org args) config "org_id" ;;
    ret (token, org)
  else
    ret (arg_value (arg_token args), arg_value (arg_org args)).

(** [main], from the parsed arguments on. *)
Definition main (fuel : nat) (args : Args) : M unit :=
  credentials <- resolve_credentials args ;;
  let (token, org) := credentials : pyval * pyval in
  if negb (truthy token) || negb (truthy org) then
    print "Error: Both API token and organization ID are required." ;;;
    print "Provide them via command line arguments or config file." ;;;
    sys_exit 1
  else if arg_dry_run args then
    print "DRY RUN MODE - No API calls will be made" ;;;
    print (fstring ["Would extract projects with prefix: '"; arg_prefix args; "'"]) ;;;
    print (fstring ["Would use/create collection: '"; arg_collection args; "'"]) ;;;
    when (truthy_opt (arg_output args))
         (print (fstring ["Would save to file: '"; opt_string (arg_output args); "'"]))
  else
    let manager := init token org in
    project_ids <- process_projects_and_collection fuel manager
                     (arg_prefix args) (arg_collection args) (arg_output args) ;;
    if truthy (VList project_ids) then
      print (fstring [newline; "✅ Operation completed successfully!"]) ;;;
      print (fstring ["Extracted "; str_len project_ids; " project IDs"]) ;;;
      sys_exit 0
    else
      print (fstring [newline; "❌ No projects found with the specified prefix!"]) ;;;
      sys_exit 1.

End Script.

Notation "x <- m ;; k" := (bind m (fun x => k))
  (at level 61, m at next level, right associativity).
Notation "m ;;; k" := (bind m (fun _ => k))
  (at level 61, right associativity).

(** ** A scripted outside

    For running the script on examples: the remote answers the HTTP
    requests with the responses of a list, one after the other, whatever
    the request; when the list is used up the connection fails.  Files
    are always written, there is no configuration file, the clock shows
    0. *)

Definition connection_error : request_error :=
  mkRequestError "Connection refused" None.

(** A failure that carries a response with the given status. *)
Definition http_status_error (code : Z) : request_error :=
  mkRequestError "HTTP Error" (Some (code, EmptyString)).

Definition scripted_request (script : list http_result) : http_result * list http_result :=
  match script with
  | r :: rest => (r, rest)
  | [] => (HttpError connection_error, [])
  end.

(** [str] on the values the examples print: strings, numbers, [None].
    Lists and dictionaries, which the examples never print, are shown
    without their contents; the properties keep [py_str] abstract. *)
Definition show_value (v : pyval) : string :=
  match v with
  | VNone => "None"
  | VBool true => "True"
  | VBool false => "False"
  | VNum z => NilZero.string_of_int (Z.to_int z)
  | VStr s => s
  | VList _ => "[...]"
  | VDict _ => "{...}"
  end.

Definition scripted : Outside := {|
  Env := list http_result;
  requests_get := fun _ _ script => scripted_request script;
  requests_post := fun _ _ _ script => scripted_request script;
  write_lines := fun _ _ script => (None, script);
  read_config := fun _ script => (ConfigNotFound, script);
  time_time := fun script => (0%Z, script);
  py_str := show_value
|}.

(** A listed entry (project or collection) with the given id and name. *)
Definition entry (id name : string) : pyval :=
  VDict [("id", VStr id); ("type", VStr "resource");
         ("attributes", VDict [("name", VStr name)])].

(** A page of a listing: its entries and, when there is one, the link to
    the next page. *)
Definition page (entries : list pyval) (next : option string) : pyval :=
  match next with
  | Some url => VDict [("data", VList entries); ("links", VDict [("next", VStr url)])]
  | None => VDict [("data", VList entries); ("links", VDict [])]
  end.

(** The response to a successful creation request. *)
Definition created (id name : string) : pyval :=
  VDict [("data", entry id name)].

Definition example_manager : SnykCollectionsManager :=
  init (outside := scripted) (VStr "token-1") (VStr "org-1").

Definition example_args : Args :=
  mkArgs "svc-" "Services" None (Some "token-1") (Some "org-1") "config.json" false.

(** Two projects on one page. *)
Definition two_projects : http_result :=
  HttpOk (page [entry "p1" "svc-auth"; entry "p2" "svc-db"] None).

(** One collection, under another name than the one looked for. *)
Definition other_collection : http_result :=
  HttpOk (page [entry "c1" "Other"] None).

(** The two listing requests of the examples. *)
Definition list_projects : event :=
  CallGet (VStr (projects_url (outside := scripted) example_manager "svc-"))
    (headers example_manager).

Definition list_collections : event :=
  CallGet (VStr (collections_url (outside := scripted) example_manager))
    (headers example_manager).

(** A remote whose listings never end: every request is answered with
    an empty page that links to a further page. *)
Definition looping : Outside := {|
  Env := unit;
  requests_get := fun _ _ e => (HttpOk (page [] (Some "https://api.snyk.io/rest/more")), e);
  requests_post := fun _ _ _ e => (HttpError connection_error, e);
  write_lines := fun _ _ e => (None, e);
  read_config := fun _ e => (ConfigNotFound, e);
  time_time := fun e => (0%Z, e);
  py_str := show_value
|}.


(** A scripted outside with a configuration file that holds a token and
    an organization id. *)
Definition configured : Outside := {|
  Env := list http_result;
  requests_get := fun _ _ script => scripted_request script;
  requests_post := fun _ _ _ script => scripted_request script;
  write_lines := fun _ _ script => (None, script);
  read_config := fun _ script =>
    (ConfigLoaded (VDict [("api_token", VStr "file-token"); ("org_id", VStr "file-org")]),
     script);
  time_time := fun script => (0%Z, script);
  py_str := show_value
|}.

(** The example command line with [--dry-run], and one with a token but
    no organization id. *)
Definition dry_run_args : Args :=
  mkArgs "svc-" "Services" (Some "ids.txt") (Some "token-1") (Some "org-1") "config.json" true.

Definition token_only_args : Args :=
  mkArgs "svc-" "Services" None (Some "cli-token") None "config.json" false.

(** One collection under the name looked for. *)
Definition services_collection : http_result :=
  HttpOk (page [entry "c1" "Services"] None).


(** ** Specification-side notions *)

(** The name attribute of a listed entry, [entry['attributes']['name']],
    when it has one. *)
Definition name_attribute (v : pyval) : option pyval :=
  match v with
  | VDict fields =>
      match lookup "attributes" fields with
      | Some (VDict attributes) => lookup "name" attributes
      | _ => None
      end
  | _ => None
  end.

(** An entry is named [name] when its name attribute is that very string. *)
Definition named (name : string) (v : pyval) : Prop :=
  name_attribute v = Some (VStr name).

(** A listed entry is a record: a dictionary whose [attributes], when
    present, is a dictionary too. *)
Definition is_record (v : pyval) : Prop :=
  match v with
  | VDict fields =>
      match lookup "attributes" fields with
      | Some (VDict _) | None => True
      | Some _ => False
      end
  | _ => False
  end.

(** A response body that is a page of a listing: its entries are the
    list under [data]; [next] is the link under [links.next] when the
    page has a further one, and [None] when the link is missing, null or
    empty. *)
Definition is_page (body : pyval) (entries : list pyval) (next : option pyval) : Prop :=
  exists fields,
    body = VDict fields /\
    lookup "data" fields = Some (VList entries) /\
    match next with
    | Some url =>
        exists links, lookup "links" fields = Some (VDict links) /\
                      lookup "next" links = Some url /\ truthy url = true
    | None =>
        lookup "links" fields = None \/
        exists links, lookup "links" fields = Some (VDict links) /\
                      (lookup "next" links = None \/
                       exists url, lookup "next" links = Some url /\ truthy url = false)
    end.

(** A listing of five entries served in three pages of sizes 2, 2 and 1;
    the first two pages link to the next one, the third has no link. *)
Definition page_1 : list pyval := [entry "p1" "svc-auth"; entry "p2" "svc-db"].
Definition page_2 : list pyval := [entry "p3" "svc-mail"; entry "p4" "svc-pay"].
Definition page_3 : list pyval := [entry "p5" "svc-web"].

Definition three_pages : list http_result :=
  [HttpOk (page page_1 (Some "https://api.snyk.io/rest/page2"));
   HttpOk (page page_2 (Some "https://api.snyk.io/rest/page3"));
   HttpOk (page page_3 None)].


(** Whether a request succeeded. *)
Definition succeeded (r : http_result) : bool :=
  match r with
  | HttpOk _ => true
  | HttpError _ => false
  end.

(** The file writes of a trace. *)
Definition writes (t : list event) : list event := filter is_write t.

(** A group with the given id. *)
Definition has_id (group cid : pyval) : Prop :=
  exists fields, group = VDict fields /\ lookup "id" fields = Some cid.


Section Notions.

Context {outside : Outside}.

(** [serves hs url pages e e']: from state [e], the remote answers the
    request for [url] with the first of [pages], which links to a URL
    that it answers with the second, and so on; the last page has no
    further link, and the remote is then in state [e']. *)
Fixpoint serves (hs : headers_t) (url : pyval) (pages : list (list pyval))
    (e e' : Env) : Prop :=
  match pages with
  | [] => False
  | entries :: rest =>
      truthy url = true /\
      exists body e1,
        requests_get url hs e = (HttpOk body, e1) /\
        match rest with
        | [] => is_page body entries None /\ e1 = e'
        | _ :: _ => exists next, is_page body entries (Some next) /\ serves hs next rest e1 e'
        end
  end.

(** The group step 3 of [process_projects_and_collection] settles on:
    the one found under the name, or else the one it creates. *)
Definition settle (self : SnykCollectionsManager) (collection_name : string)
    (project_ids : list pyval) (found : pyval) : M pyval :=
  if negb (truthy found) then create_collection self collection_name (Some project_ids)
  else ret found.

(** [matched fuel self prefix name e ids found e3 ct]: started in state
    [e], the run extracts the non-empty batch [ids], gets a non-empty
    list of collections, and looks the name up in a second listing, with
    result [found]; the outside is then in state [e3] and [ct] are the
    calls made so far. *)
Definition matched (fuel : nat) (self : SnykCollectionsManager)
    (project_name_prefix collection_name : string) (e : Env)
    (ids : list pyval) (found : pyval) (e3 : Env) (ct : list event) : Prop :=
  exists e1 t1 cs e2 t2 t3,
    extract_project_ids fuel self project_name_prefix e = (Return ids, e1, t1) /\
    ids <> [] /\
    get_collections fuel self e1 = (Return cs, e2, t2) /\
    cs <> [] /\
    find_collection_by_name fuel self collection_name e2 = (Return found, e3, t3) /\
    ct = calls t1 ++ calls t2 ++ calls t3.

(** What the report at the end of a run adds: the file, when the attach
    succeeded and an output path was given. *)
Definition saved (ids : list pyval) (output_file : option string) (success : bool)
    (e : Env) : Env * list event :=
  if success && truthy_opt output_file then
    (snd (write_lines (opt_string output_file) (id_lines ids) e),
     [CallWrite (opt_string output_file) (id_lines ids)])
  else (e, []).

(** A piece of script that writes no file. *)
Definition writes_nothing {A : Type} (m : M A) : Prop :=
  forall e, writes (snd (m e)) = [].

(** A piece of script all of whose events satisfy [P]. *)
Definition emits {A : Type} (P : event -> Prop) (m : M A) : Prop :=
  forall e, Forall P (snd (m e)).

(** A print, or a GET request sent with the headers [hs]. *)
Definition print_or_get (hs : headers_t) (ev : event) : Prop :=
  match ev with
  | Print _ => True
  | CallGet _ hs' => hs' = hs
  | _ => False
  end.

(** A print, a GET or POST request sent with the headers [hs], or a
    write to the file [path]. *)
Definition run_event (hs : headers_t) (path : string) (ev : event) : Prop :=
  match ev with
  | Print _ => True
  | CallGet _ hs' => hs' = hs
  | CallPost _ hs' _ => hs' = hs
  | CallWrite path' _ => path' = path
  | CallReadConfig _ => False
  end.

(** [serves_at hs urls pages e e']: as [serves], with the URLs of the
    requests: the first of [urls] is answered with the first of [pages],
    whose [links.next] is the second of [urls], and so on. *)
Fixpoint serves_at (hs : headers_t) (urls : list pyval) (pages : list (list pyval))
    (e e' : Env) : Prop :=
  match urls, pages with
  | url :: urls', entries :: pages' =>
      truthy url = true /\
      exists body e1,
        requests_get url hs e = (HttpOk body, e1) /\
        match urls' with
        | [] => pages' = [] /\ is_page body entries None /\ e1 = e'
        | next :: _ => is_page body entries (Some next) /\ serves_at hs urls' pages' e1 e'
        end
  | _, _ => False
  end.

(** A remote that answers every GET sent with [hs] with a page that
    links to a further one. *)
Definition always_more (hs : headers_t) : Prop :=
  forall url e,
    exists body e1 entries next,
      requests_get url hs e = (HttpOk body, e1) /\ is_page body entries (Some next).

(** The id of a listed entry, [entry['id']], when it has one. *)
Definition id_attribute (v : pyval) : option pyval :=
  match v with
  | VDict fields => lookup "id" fields
  | _ => None
  end.

(** The path [save_project_ids] writes to, and the state of the outside
    when it does: the given path, or one made from the clock. *)
Definition save_path (output_file : option string) (e : Env) : string * Env :=
  if truthy_opt output_file then (opt_string output_file, e)
  else (fstring ["project_ids_"; py_str (VNum (fst (time_time e))); ".txt"],
        snd (time_time e)).


End Notions.

(** ** Properties *)

Section Properties.

Context {outside : Outside}.

(** *** Traces *)

Lemma calls_nil : calls [] = [].
Proof. reflexivity. Qed.

Lemma calls_app t1 t2 : calls (t1 ++ t2) = calls t1 ++ calls t2.
Proof. apply filter_app. Qed.

Lemma calls_cons_print line t : calls (Print line :: t) = calls t.
Proof. reflexivity. Qed.

Lemma calls_cons_get url hs t : calls (CallGet url hs :: t) = CallGet url hs :: calls t.
Proof. reflexivity. Qed.

Lemma calls_cons_post url hs payload t :
  calls (CallPost url hs payload :: t) = CallPost url hs payload :: calls t.
Proof. reflexivity. Qed.

Lemma calls_cons_write path lines t :
  calls (CallWrite path lines :: t) = CallWrite path lines :: calls t.
Proof. reflexivity. Qed.

Lemma calls_prints t : Forall (fun ev => is_print ev = true) t -> calls t = [].
Proof.
  induction 1 as [ | ev t Hev _ IH]; [reflexivity | ].
  destruct ev; try discriminate. now rewrite calls_cons_print.
Qed.

Create Rewrite HintDb calls.

Hint Rewrite calls_nil calls_app calls_cons_print calls_cons_get calls_cons_post
  calls_cons_write app_nil_r : calls.

(** Brings the [calls] of a trace built by the lemmas below to a list. *)
Ltac simpl_calls := simpl app; autorewrite with calls; simpl app.

(** *** Running the monad *)

Lemma bind_return {A B : Type} (m : M A) (k : A -> M B) e a e1 t1 o e2 t2 :
  m e = (Return a, e1, t1) ->
  k a e1 = (o, e2, t2) ->
  bind m k e = (o, e2, t1 ++ t2).
Proof. intros Hm Hk. unfold bind. now rewrite Hm, Hk. Qed.

Lemma bind_raise {A B : Type} (m : M A) (k : A -> M B) e x e1 t1 :
  m e = (Raise x, e1, t1) ->
  bind m k e = (Raise x, e1, t1).
Proof. intros Hm. unfold bind. now rewrite Hm. Qed.

Lemma bind_diverge {A B : Type} (m : M A) (k : A -> M B) e e1 t1 :
  m e = (Diverge, e1, t1) ->
  bind m k e = (Diverge, e1, t1).
Proof. intros Hm. unfold bind. now rewrite Hm. Qed.

Lemma bind_inv {A B : Type} (m : M A) (k : A -> M B) e b e2 t :
  bind m k e = (Return b, e2, t) ->
  exists a e1 t1 t2,
    m e = (Return a, e1, t1) /\ k a e1 = (Return b, e2, t2) /\ t = t1 ++ t2.
Proof.
  unfold bind. destruct (m e) as [[[a | x |] e1] t1]; try discriminate.
  destruct (k a e1) as [[o e3] t2] eqn:Hk. intros H. inversion H; subst.
  now exists a, e1, t1, t2.
Qed.

Lemma try_return {A : Type} (body : M A) handler e a e1 t1 :
  body e = (Return a, e1, t1) ->
  try_except body handler e = (Return a, e1, t1).
Proof. intros Hb. unfold try_except. now rewrite Hb. Qed.

Lemma try_caught {A : Type} (body : M A) handler e x e1 t1 o e2 t2 :
  body e = (Raise (RequestException x), e1, t1) ->
  handler x e1 = (o, e2, t2) ->
  try_except body handler e = (o, e2, t1 ++ t2).
Proof. intros Hb Hh. unfold try_except. now rewrite Hb, Hh. Qed.

(** *** Values *)

Lemma eq_str_true v name : eq_str v name = true <-> v = VStr name.
Proof.
  split.
  - destruct v; simpl; try discriminate. intros H. apply String.eqb_eq in H. now subst.
  - intros ->. simpl. apply String.eqb_refl.
Qed.

Lemma truthy_list_nonempty (l : list pyval) : truthy (VList l) = true <-> l <> [].
Proof. destruct l; simpl; split; intros; congruence. Qed.

(** *** The matcher *)

(** One step of the scan on a well-formed entry: stop on it if it is
    named as wanted, go on otherwise; no event, no change outside. *)
Lemma find_in_collections_cons c rest name e :
  is_record c ->
  (named name c /\ find_in_collections (c :: rest) name e = (Return c, e, [])) \/
  (~ named name c /\
   find_in_collections (c :: rest) name e = find_in_collections rest name e).
Proof.
  intros Hc. destruct c as [ | | | | | fields]; try contradiction.
  unfold named, name_attribute. simpl in Hc |- *.
  destruct (lookup "attributes" fields) as [[ | | | | | attributes] | ];
    try contradiction; simpl.
  - unfold bind; simpl.
    destruct (lookup "name" attributes) as [v | ] eqn:Hname; simpl.
    + destruct (eq_str v name) eqn:Heq; simpl.
      * left. apply eq_str_true in Heq. subst. auto.
      * right. split.
        -- intros H. injection H as ->.
           assert (eq_str (VStr name) name = true) by now apply eq_str_true.
           congruence.
        -- now destruct (find_in_collections rest name e) as [[o e2] t2].
    + right. split; [discriminate | ].
      now destruct (find_in_collections rest name e) as [[o e2] t2].
  - unfold bind; simpl. right. split; [discriminate | ].
    now destruct (find_in_collections rest name e) as [[o e2] t2].
Qed.

(** On well-formed entries the scan returns the first one named as
    wanted, or [None] when there is none. *)
Lemma find_in_collections_first cs name e :
  Forall is_record cs ->
  exists r,
    find_in_collections cs name e = (Return r, e, []) /\
    ((r = VNone /\ forall c, In c cs -> ~ named name c) \/
     (exists pre post,
        cs = pre ++ r :: post /\ named name r /\
        forall c, In c pre -> ~ named name c)).
Proof.
  induction 1 as [ | c rest Hc Hrest IH].
  - exists VNone. split; [reflexivity | ]. left. split; [reflexivity | ]. intros c [].
  - destruct (find_in_collections_cons c rest name e Hc) as [[Hn Hf] | [Hn Hf]].
    + exists c. split; [exact Hf | ]. right. exists [], rest.
      split; [reflexivity | ]. split; [exact Hn | ]. intros c' [].
    + destruct IH as [r [Hr Hcase]]. exists r. rewrite Hf. split; [exact Hr | ].
      destruct Hcase as [[-> Hnone] | [pre [post [-> [Hnamed Hpre]]]]].
      * left. split; [reflexivity | ]. intros c' [<- | Hin]; auto.
      * right. exists (c :: pre), post.
        split; [reflexivity | ]. split; [exact Hnamed | ].
        intros c' [<- | Hin]; auto.
Qed.

(** What [print_entries] gets through is well formed. *)
Lemma print_entries_records entries e e1 t :
  print_entries entries e = (Return tt, e1, t) -> Forall is_record entries.
Proof.
  revert e e1 t. induction entries as [ | c rest IH]; intros e e1 t H.
  - constructor.
  - simpl in H. apply bind_inv in H as (attributes & ea & ta & tb & Ha & H & _).
    apply bind_inv in H as (nm & eb & tc & td & Hnm & H & _).
    apply bind_inv in H as (id & ec & te & tf & Hid & H & _).
    apply bind_inv in H as (u & ed & tg & th & _ & H & _).
    constructor; [ | now apply IH in H].
    destruct c as [ | | | | | fields]; try discriminate Ha. simpl in Ha |- *.
    destruct (lookup "attributes" fields) as [[ | | | | | attributes'] | ];
      try exact I; inversion Ha; subst; discriminate Hnm.
Qed.

Lemma try_inv {A : Type} (body : M A) handler e a e2 t :
  try_except body handler e = (Return a, e2, t) ->
  body e = (Return a, e2, t) \/
  exists x e1 t1 t2,
    body e = (Raise (RequestException x), e1, t1) /\
    handler x e1 = (Return a, e2, t2) /\ t = t1 ++ t2.
Proof.
  unfold try_except. destruct (body e) as [[[b | x | ] e1] t1]; try discriminate.
  - intros H. now left.
  - destruct x as [x | | | | | ]; try discriminate.
    destruct (handler x e1) as [[o e3] t2] eqn:Hh. intros H. inversion H; subst.
    right. now exists x, e1, t1, t2.
Qed.

(** *** The listings *)

(** The [except] branches only print, and give the empty list. *)
Lemma get_projects_except_returns x e :
  exists t,
    get_projects_except x e = (Return [], e, t) /\
    In (Print (fstring ["Error retrieving projects: "; err_text x])) t /\
    Forall (fun ev => is_print ev = true) t.
Proof.
  unfold get_projects_except.
  destruct (status_code x) as [code | ];
    [destruct (Z.eqb code 404); [ | destruct (Z.eqb code 401); [ | destruct (Z.eqb code 403)]] | ];
    (eexists; split; [reflexivity | split; [left; reflexivity | repeat constructor]]).
Qed.

Lemma get_collections_except_returns x e :
  exists t,
    get_collections_except x e = (Return [], e, t) /\
    In (Print (fstring ["Error retrieving collections: "; err_text x])) t /\
    Forall (fun ev => is_print ev = true) t.
Proof.
  unfold get_collections_except.
  destruct (status_code x) as [code | ];
    [destruct (Z.eqb code 404); [ | destruct (Z.eqb code 401); [ | destruct (Z.eqb code 403)]] | ];
    (eexists; split; [reflexivity | split; [left; reflexivity | repeat constructor]]).
Qed.

(** On a 404 the [except] branch of [get_collections] says that
    collections are not available. *)
Lemma get_collections_except_404 x e :
  status_code x = Some 404%Z ->
  In (Print "⚠️  Collections are not available for this organization (404 Not Found)")
     (snd (get_collections_except x e)).
Proof.
  intros Hx. unfold get_collections_except. rewrite Hx. simpl. right. now left.
Qed.


Lemma get_collections_caught fuel self e x e1 t1 :
  get_collections_try fuel self e = (Raise (RequestException x), e1, t1) ->
  exists t,
    get_collections fuel self e = (Return [], e1, t) /\
    In (Print (fstring ["Error retrieving collections: "; err_text x])) t /\
    calls t = calls t1.
Proof.
  intros Hb. destruct (get_collections_except_returns x e1) as (t2 & Hh & Hin & Hpr).
  eexists. split; [ | split].
  - unfold get_collections.
    eapply bind_return; [reflexivity | ]. eapply try_caught; eassumption.
  - simpl. right. apply in_or_app. now right.
  - simpl_calls. now rewrite (calls_prints t2 Hpr), app_nil_r.
Qed.

(** What the listings return is well formed. *)
Lemma get_collections_records fuel self e cs e1 t :
  get_collections fuel self e = (Return cs, e1, t) -> Forall is_record cs.
Proof.
  unfold get_collections. intros H.
  apply bind_inv in H as (u & e0 & t0 & t' & _ & H & _).
  apply try_inv in H as [H | (x & e2 & t1 & t2 & _ & H & _)].
  - unfold get_collections_try in H.
    apply bind_inv in H as (cs' & ea & ta & tb & _ & H & _).
    apply bind_inv in H as (u1 & eb & tc & td & _ & H & _).
    apply bind_inv in H as ([] & ec & te & tf & Hp & H & _).
    inversion H; subst. eapply print_entries_records; eassumption.
  - destruct (get_collections_except_returns x e2) as (t3 & Hh & _).
    rewrite Hh in H. inversion H. constructor.
Qed.

(** With no URL left the loop is over, whatever the fuel. *)
Lemma fetch_pages_done noun fuel self url acc e :
  truthy url = false ->
  fetch_pages noun fuel self url acc e = (Return acc, e, []).
Proof. intros H. destruct fuel; simpl; now rewrite H. Qed.

(** A page without a further link ends the loop. *)
Lemma fetch_pages_last noun fuel self url acc e body e1 entries :
  truthy url = true ->
  requests_get url (headers self) e = (HttpOk body, e1) ->
  is_page body entries None ->
  exists t,
    fetch_pages noun (S fuel) self url acc e = (Return (acc ++ entries), e1, t) /\
    calls t = [CallGet url (headers self)].
Proof.
  intros Hurl Hget (fields & -> & Hdata & Hlinks).
  assert (Hnext : exists url',
             bind (py_get (VDict fields) "links" (VDict []))
                  (fun links => py_get links "next" VNone) e1 = (Return url', e1, [])
             /\ truthy url' = false).
  { unfold bind. simpl.
    destruct Hlinks as [-> | (links & -> & [Hn | (url' & Hn & Hf)])]; simpl.
    - now exists VNone.
    - rewrite Hn. now exists VNone.
    - rewrite Hn. now exists url'. }
  destruct Hnext as (url' & Hnext & Hfalse).
  unfold bind in Hnext.
  destruct (py_get (VDict fields) "links" (VDict []) e1) as [[[links | | ] e2] t2] eqn:Hl;
    try discriminate.
  destruct (py_get links "next" VNone e2) as [[o e3] t3] eqn:Hn.
  inversion Hnext; subst.
  eexists. split.
  - simpl. rewrite Hurl.
    eapply bind_return; [reflexivity | ].
    eapply bind_return; [unfold http_get; rewrite Hget; reflexivity | ].
    eapply bind_return; [simpl; rewrite Hdata; reflexivity | ].
    eapply bind_return; [reflexivity | ].
    eapply bind_return; [exact Hl | ].
    eapply bind_return; [exact Hn | ].
    rewrite Hfalse.
    eapply bind_return; [reflexivity | ].
    now apply fetch_pages_done.
  - apply app_eq_nil in H2 as [-> ->]. now simpl_calls.
Qed.

(** A page with a further link sends the loop to that link, with the
    page's entries added to those gathered so far. *)
Lemma fetch_pages_next noun fuel self url acc e body e1 entries next o e2 t2 :
  truthy url = true ->
  requests_get url (headers self) e = (HttpOk body, e1) ->
  is_page body entries (Some next) ->
  fetch_pages noun fuel self next (acc ++ entries) e1 = (o, e2, t2) ->
  exists t,
    fetch_pages noun (S fuel) self url acc e = (o, e2, t) /\
    calls t = CallGet url (headers self) :: calls t2.
Proof.
  intros Hurl Hget (fields & -> & Hdata & links & Hlinks & Hnext & Htrue) Hrest.
  eexists. split.
  - simpl fetch_pages. rewrite Hurl.
    eapply bind_return; [reflexivity | ].
    eapply bind_return; [unfold http_get; rewrite Hget; reflexivity | ].
    eapply bind_return; [simpl; rewrite Hdata; reflexivity | ].
    eapply bind_return; [reflexivity | ].
    eapply bind_return; [simpl; rewrite Hlinks; reflexivity | ].
    eapply bind_return; [simpl; rewrite Hnext; reflexivity | ].
    rewrite Htrue.
    eapply bind_return; [reflexivity | ].
    exact Hrest.
  - now simpl_calls.
Qed.

(** The loop over a listing served in pages gathers the pages' entries
    in the order of the pages. *)
Lemma fetch_pages_serves noun self pages :
  forall fuel url acc e e',
    serves (headers self) url pages e e' ->
    List.length pages <= fuel ->
    exists t,
      fetch_pages noun fuel self url acc e = (Return (acc ++ concat pages), e', t) /\
      List.length (calls t) = List.length pages.
Proof.
  induction pages as [ | entries rest IH]; intros fuel url acc e e' Hs Hfuel.
  - destruct Hs.
  - destruct fuel as [ | fuel]; [simpl in Hfuel; lia | ].
    destruct Hs as (Hurl & body & e1 & Hget & Hrest).
    destruct rest as [ | entries' rest].
    + destruct Hrest as [Hpage ->].
      destruct (fetch_pages_last noun fuel self url acc e body e' entries Hurl Hget Hpage)
        as (t & Ht & Hc).
      exists t. simpl concat. rewrite app_nil_r. split; [exact Ht | now rewrite Hc].
    + destruct Hrest as (next & Hpage & Hserves).
      destruct (IH fuel next (acc ++ entries) e1 e' Hserves) as (t2 & Ht2 & Hc2).
      { simpl in Hfuel |- *. lia. }
      destruct (fetch_pages_next noun fuel self url acc e body e1 entries next _ _ _
                  Hurl Hget Hpage Ht2) as (t & Ht & Hc).
      exists t. split.
      * rewrite Ht. simpl concat. now rewrite <- app_assoc.
      * rewrite Hc. simpl. now rewrite Hc2.
Qed.

(** Well-formed entries are printed without a fault. *)
Lemma print_entries_returns entries e :
  Forall is_record entries ->
  exists t, print_entries entries e = (Return tt, e, t) /\ calls t = [].
Proof.
  induction 1 as [ | c rest Hc _ (t & IH & Hcalls)].
  - now exists [].
  - destruct c as [ | | | | | fields]; try contradiction. simpl in Hc.
    assert (Ha : exists attributes,
               py_get (VDict fields) "attributes" (VDict []) e
               = (Return (VDict attributes), e, [])).
    { simpl. destruct (lookup "attributes" fields) as [[ | | | | | attributes] | ];
        try contradiction; eexists; reflexivity. }
    destruct Ha as (attributes & Ha).
    assert (Hn : exists nm, py_get (VDict attributes) "name" (VStr "Unknown") e
                            = (Return nm, e, [])).
    { simpl. destruct (lookup "name" attributes); eexists; reflexivity. }
    destruct Hn as (nm & Hn).
    assert (Hi : exists id, py_get (VDict fields) "id" (VStr "Unknown") e
                            = (Return id, e, [])).
    { simpl. destruct (lookup "id" fields); eexists; reflexivity. }
    destruct Hi as (id & Hi).
    eexists. split.
    + simpl print_entries.
      eapply bind_return; [exact Ha | ].
      eapply bind_return; [exact Hn | ].
      eapply bind_return; [exact Hi | ].
      eapply bind_return; [reflexivity | ].
      exact IH.
    + exact Hcalls.
Qed.

Lemma get_projects_serves fuel self name_prefix pages e e' :
  serves (headers self) (VStr (projects_url self name_prefix)) pages e e' ->
  List.length pages <= fuel ->
  Forall is_record (concat pages) ->
  exists t,
    get_projects_by_name_prefix fuel self name_prefix e = (Return (concat pages), e', t) /\
    List.length (calls t) = List.length pages.
Proof.
  intros Hs Hfuel Hrec.
  destruct (fetch_pages_serves "projects" self pages fuel _ [] e e' Hs Hfuel)
    as (t1 & Hf & Hc1).
  destruct (print_entries_returns (concat pages) e' Hrec) as (t2 & Hp & Hc2).
  eexists. split.
  - unfold get_projects_by_name_prefix.
    eapply bind_return; [reflexivity | ].
    apply try_return. unfold get_projects_try.
    eapply bind_return; [exact Hf | ].
    eapply bind_return; [reflexivity | ].
    eapply bind_return; [exact Hp | ].
    reflexivity.
  - simpl_calls. now rewrite Hc2, app_nil_r.
Qed.

Lemma get_collections_serves fuel self pages e e' :
  serves (headers self) (VStr (collections_url self)) pages e e' ->
  List.length pages <= fuel ->
  Forall is_record (concat pages) ->
  exists t,
    get_collections fuel self e = (Return (concat pages), e', t) /\
    List.length (calls t) = List.length pages.
Proof.
  intros Hs Hfuel Hrec.
  destruct (fetch_pages_serves "collections" self pages fuel _ [] e e' Hs Hfuel)
    as (t1 & Hf & Hc1).
  destruct (print_entries_returns (concat pages) e' Hrec) as (t2 & Hp & Hc2).
  eexists. split.
  - unfold get_collections.
    eapply bind_return; [reflexivity | ].
    apply try_return. unfold get_collections_try.
    eapply bind_return; [exact Hf | ].
    eapply bind_return; [reflexivity | ].
    eapply bind_return; [exact Hp | ].
    reflexivity.
  - simpl_calls. now rewrite Hc2, app_nil_r.
Qed.

(** *** Fuel

    The fuel is only a bound: a listing that ends within some number of
    pages ends the same way with any larger one. *)

Lemma bind_more {A B : Type} (m : M A) (k k' : A -> M B) e o e1 t :
  (forall a e' o' e1' t', k a e' = (o', e1', t') -> o' <> Diverge -> k' a e' = (o', e1', t')) ->
  bind m k e = (o, e1, t) -> o <> Diverge -> bind m k' e = (o, e1, t).
Proof.
  intros Hk. unfold bind. destruct (m e) as [[[a | x | ] e0] t0]; auto.
  destruct (k a e0) as [[o' e1'] t'] eqn:Hka. intros H Ho. inversion H; subst.
  now rewrite (Hk a e0 o e1 t' Hka Ho).
Qed.

Lemma fetch_pages_more_fuel noun self fuel :
  forall fuel' url acc e o e1 t,
    fuel <= fuel' ->
    fetch_pages noun fuel self url acc e = (o, e1, t) ->
    o <> Diverge ->
    fetch_pages noun fuel' self url acc e = (o, e1, t).
Proof.
  induction fuel as [ | fuel IH]; intros fuel' url acc e o e1 t Hle H Ho.
  - simpl in H. destruct (truthy url) eqn:Hurl.
    + inversion H; subst. congruence.
    + now rewrite fetch_pages_done.
  - destruct fuel' as [ | fuel']; [lia | ].
    simpl in H |- *. destruct (truthy url); [ | exact H].
    revert H Ho. apply bind_more. intros ? ? ? ? ?.
    apply bind_more. intros ? ? ? ? ?.
    apply bind_more. intros ? ? ? ? ?.
    apply bind_more. intros ? ? ? ? ?.
    apply bind_more. intros ? ? ? ? ?.
    apply bind_more. intros ? ? ? ? ?.
    apply bind_more. intros ? ? ? ? ?.
    apply IH. lia.
Qed.

(** [create_collection] never needs more than its two levels. *)
Lemma create_collection_rec_depth depth self name project_ids e :
  create_collection_rec (S (S depth)) self name project_ids e
  = create_collection self name project_ids e.
Proof. reflexivity. Qed.


(** *** Creating and attaching *)

Lemma collections_unavailable_iff cs : collections_unavailable cs = true <-> cs = [].
Proof. unfold collections_unavailable. destruct cs; simpl; split; intros; congruence. Qed.

Lemma collections_available cs : cs <> [] -> collections_unavailable cs = false.
Proof. destruct cs; [congruence | reflexivity]. Qed.

Lemma ids_given_some ids : ids <> [] -> ids_given (Some ids) = true.
Proof. destruct ids; [congruence | reflexivity]. Qed.

(** The [except] branches of the two POSTing functions start by
    printing the error and, when there is one, the response. *)
Lemma print_response_returns (x : request_error) e :
  exists t,
    match err_response x with
    | Some (code, text) =>
        print (fstring ["Response status: "; py_str (VNum code)]) ;;;
        print (fstring ["Response body: "; text])
    | None => ret tt
    end e = (Return tt, e, t) /\ calls t = [].
Proof. destruct (err_response x) as [[code text] | ]; eexists; split; reflexivity. Qed.

(** A creation request that succeeds gives the group under [data]. *)
Lemma create_collection_rec_ok depth self name project_ids e fields g e1 :
  requests_post (VStr (collections_url self)) (headers self)
    (create_payload name project_ids) e = (HttpOk (VDict fields), e1) ->
  lookup "data" fields = Some (VDict g) ->
  exists t,
    create_collection_rec (S depth) self name project_ids e = (Return (VDict g), e1, t) /\
    calls t = [CallPost (VStr (collections_url self)) (headers self)
                 (create_payload name project_ids)].
Proof.
  intros Hpost Hdata.
  assert (Hid : exists id, py_get (VDict g) "id" (VStr "Unknown") e1 = (Return id, e1, [])).
  { simpl. destruct (lookup "id" g); eexists; reflexivity. }
  destruct Hid as (id & Hid).
  simpl create_collection_rec. destruct (ids_given project_ids); eexists; (split; [
    eapply bind_return; [reflexivity | ];
    apply try_return;
    eapply bind_return; [unfold http_post; rewrite Hpost; reflexivity | ];
    eapply bind_return; [simpl; rewrite Hdata; reflexivity | ];
    eapply bind_return; [exact Hid | ];
    eapply bind_return; reflexivity
  | now simpl_calls ]).
Qed.

(** A name-only creation request that fails ends the process. *)
Lemma create_collection_rec_fatal depth self name e x e1 :
  requests_post (VStr (collections_url self)) (headers self)
    (create_payload name None) e = (HttpError x, e1) ->
  exists t,
    create_collection_rec (S depth) self name None e = (Raise (SystemExit 1), e1, t) /\
    calls t = [CallPost (VStr (collections_url self)) (headers self)
                 (create_payload name None)].
Proof.
  intros Hpost. destruct (print_response_returns x e1) as (tr & Hr & Hcr).
  eexists. split.
  - simpl create_collection_rec.
    eapply bind_return; [reflexivity | ].
    eapply try_caught; [unfold http_post; eapply bind_raise; rewrite Hpost; reflexivity | ].
    eapply bind_return; [reflexivity | ].
    eapply bind_return; [exact Hr | ].
    reflexivity.
  - simpl_calls. now rewrite Hcr.
Qed.

(** A creation request with the projects inline that fails is followed
    by the name-only request. *)
Lemma create_collection_rec_fallback depth self name ids e x e1 o e2 t2 :
  ids <> [] ->
  requests_post (VStr (collections_url self)) (headers self)
    (create_payload name (Some ids)) e = (HttpError x, e1) ->
  create_collection_rec depth self name None e1 = (o, e2, t2) ->
  exists t,
    create_collection_rec (S depth) self name (Some ids) e = (o, e2, t) /\
    calls t = CallPost (VStr (collections_url self)) (headers self)
                (create_payload name (Some ids)) :: calls t2.
Proof.
  intros Hids Hpost Hrec. destruct (print_response_returns x e1) as (tr & Hr & Hcr).
  eexists. split.
  - destruct ids as [ | id ids]; [congruence | ].
    change (create_collection_rec (S depth) self name (Some (id :: ids)))
      with (print (fstring ["Creating collection '"; name; "' with ";
                            str_len (id :: ids); " projects..."]) ;;;
            try_except
              (collection_data <- http_post (VStr (collections_url self)) (headers self)
                                    (create_payload name (Some (id :: ids))) ;;
               collection <- py_get collection_data "data" (VDict []) ;;
               collection_id <- py_get collection "id" (VStr "Unknown") ;;
               print (fstring ["Successfully created collection '"; name; "' with ";
                               str_len (id :: ids); " projects (ID: ";
                               py_str collection_id; ")"]) ;;;
               ret collection)
              (fun x =>
                 print (fstring ["Error creating collection: "; err_text x]) ;;;
                 match err_response x with
                 | Some (code, text) =>
                     print (fstring ["Response status: "; py_str (VNum code)]) ;;;
                     print (fstring ["Response body: "; text])
                 | None => ret tt
                 end ;;;
                 print "Falling back to creating collection without projects..." ;;;
                 create_collection_rec depth self name None)).
    eapply bind_return; [reflexivity | ].
    eapply try_caught; [unfold http_post; eapply bind_raise; rewrite Hpost; reflexivity | ].
    eapply bind_return; [reflexivity | ].
    eapply bind_return; [exact Hr | ].
    eapply bind_return; [reflexivity | ].
    exact Hrec.
  - simpl_calls. now rewrite Hcr.
Qed.

(** Attaching a non-empty batch is one POST to the relationships
    endpoint of the collection, and gives [True] or [False] as the POST
    succeeds or fails: it never raises. *)
Lemma add_projects_to_collection_post self cid ids name e r e1 :
  ids <> [] ->
  requests_post (VStr (relationships_url self cid)) (headers self)
    (attach_payload ids) e = (r, e1) ->
  exists t,
    add_projects_to_collection self cid ids name e = (Return (succeeded r), e1, t) /\
    calls t = [CallPost (VStr (relationships_url self cid)) (headers self)
                 (attach_payload ids)].
Proof.
  intros Hids Hpost. apply truthy_list_nonempty in Hids.
  unfold add_projects_to_collection. rewrite Hids. simpl negb. cbv iota.
  destruct r as [x | body].
  - destruct (print_response_returns x e1) as (tr & Hr & Hcr).
    eexists. split.
    + eapply bind_return; [reflexivity | ].
      eapply try_caught; [unfold http_post; eapply bind_raise; rewrite Hpost; reflexivity | ].
      eapply bind_return; [reflexivity | ].
      eapply bind_return; [exact Hr | ].
      reflexivity.
    + simpl_calls. now rewrite Hcr.
  - eexists. split.
    + eapply bind_return; [reflexivity | ].
      apply try_return.
      eapply bind_return; [unfold http_post; rewrite Hpost; reflexivity | ].
      eapply bind_return; reflexivity.
    + now simpl_calls.
Qed.

Lemma add_projects_to_collection_returns self cid ids name e :
  ids <> [] ->
  exists b e1 t,
    add_projects_to_collection self cid ids name e = (Return b, e1, t) /\
    calls t = [CallPost (VStr (relationships_url self cid)) (headers self)
                 (attach_payload ids)].
Proof.
  intros Hids.
  destruct (requests_post (VStr (relationships_url self cid)) (headers self)
              (attach_payload ids) e) as [r e1] eqn:Hpost.
  destruct (add_projects_to_collection_post self cid ids name e r e1 Hids Hpost)
    as (t & Ht & Hc).
  now exists (succeeded r), e1, t.
Qed.


(** A 404 met by the listing of collections is reported as such. *)
Lemma get_collections_caught_404 fuel self e x e1 t1 :
  get_collections_try fuel self e = (Raise (RequestException x), e1, t1) ->
  status_code x = Some 404%Z ->
  exists t,
    get_collections fuel self e = (Return [], e1, t) /\
    In (Print "⚠️  Collections are not available for this organization (404 Not Found)") t.
Proof.
  intros Hb Hx. pose proof (get_collections_except_404 x e1 Hx) as Hin.
  destruct (get_collections_except x e1) as [[o e2] t2] eqn:Hh.
  destruct (get_collections_except_returns x e1) as (t3 & Hr & _).
  rewrite Hh in Hr. inversion Hr; subst. simpl in Hin.
  eexists. split.
  - unfold get_collections.
    eapply bind_return; [reflexivity | ]. eapply try_caught; eassumption.
  - simpl app. apply in_cons. apply in_or_app. now right.
Qed.

(** With no project listed there is no id to extract. *)
Lemma extract_project_ids_none fuel self name_prefix e e1 t1 :
  get_projects_by_name_prefix fuel self name_prefix e = (Return [], e1, t1) ->
  exists t,
    extract_project_ids fuel self name_prefix e = (Return [], e1, t) /\
    calls t = calls t1.
Proof.
  intros Hp. eexists. split.
  - unfold extract_project_ids.
    eapply bind_return; [reflexivity | ].
    eapply bind_return; [exact Hp | ].
    eapply bind_return; [reflexivity | ].
    eapply bind_return; [reflexivity | ].
    eapply bind_return; reflexivity.
  - now simpl_calls.
Qed.


(** *** The run as a whole *)

Lemma save_project_ids_given self ids output_file e :
  truthy_opt output_file = true ->
  exists t,
    save_project_ids self ids output_file e
    = (Return tt, snd (write_lines (opt_string output_file) (id_lines ids) e), t) /\
    calls t = [CallWrite (opt_string output_file) (id_lines ids)].
Proof.
  intros Hout. unfold save_project_ids. rewrite Hout. simpl negb. cbv iota.
  destruct (write_lines (opt_string output_file) (id_lines ids) e) as [r e1] eqn:Hw.
  destruct r as [msg | ]; eexists; (split; [
    eapply bind_return; [reflexivity | ];
    eapply bind_return; [unfold file_write; rewrite Hw; reflexivity | ];
    reflexivity
  | now simpl_calls ]).
Qed.

(** No project: the run ends at once with the empty list. *)
Lemma process_no_projects fuel self prefix name output_file e ids e1 t1 :
  extract_project_ids fuel self prefix e = (Return ids, e1, t1) ->
  ids = [] ->
  exists t,
    process_projects_and_collection fuel self prefix name output_file e = (Return [], e1, t) /\
    calls t = calls t1.
Proof.
  intros Hx ->. eexists. split.
  - unfold process_projects_and_collection.
    do 5 (eapply bind_return; [reflexivity | ]).
    eapply bind_return; [exact Hx | ].
    simpl negb. cbv iota.
    do 2 (eapply bind_return; [reflexivity | ]).
    reflexivity.
  - now simpl_calls.
Qed.

(** Projects, but an empty list of collections: the run ends there with
    the batch. *)
Lemma process_unavailable fuel self prefix name output_file e ids e1 t1 e2 t2 :
  extract_project_ids fuel self prefix e = (Return ids, e1, t1) ->
  ids <> [] ->
  get_collections fuel self e1 = (Return [], e2, t2) ->
  exists t,
    process_projects_and_collection fuel self prefix name output_file e
    = (Return ids, e2, t) /\
    calls t = calls t1 ++ calls t2 /\
    In (Print "❌ Collections are not available for this organization.") t /\
    (forall ev, In ev t2 -> In ev t).
Proof.
  intros Hx Hids Hc. apply truthy_list_nonempty in Hids.
  eexists. split; [ | split; [ | split]].
  - unfold process_projects_and_collection.
    do 5 (eapply bind_return; [reflexivity | ]).
    eapply bind_return; [exact Hx | ].
    rewrite Hids. simpl negb. cbv iota.
    eapply bind_return; [exact Hc | ].
    change (collections_unavailable []) with true. cbv iota.
    do 6 (eapply bind_return; [reflexivity | ]).
    reflexivity.
  - now simpl_calls.
  - simpl app. do 5 apply in_cons.
    apply in_or_app. right. apply in_or_app. right. apply in_eq.
  - intros ev Hev. simpl app. do 5 apply in_cons.
    apply in_or_app. right. apply in_or_app. now left.
Qed.

(** Projects, collections, and a fatal creation: the run ends as the
    creation does. *)
Lemma process_create_raises fuel self prefix name output_file e ids found e3 ct x e4 t4 :
  matched fuel self prefix name e ids found e3 ct ->
  truthy found = false ->
  create_collection self name (Some ids) e3 = (Raise x, e4, t4) ->
  exists t,
    process_projects_and_collection fuel self prefix name output_file e = (Raise x, e4, t) /\
    calls t = ct ++ calls t4.
Proof.
  intros (e1 & t1 & cs & e2 & t2 & t3 & Hx & Hids & Hc & Hcs & Hf & ->) Hfound Hcreate.
  apply truthy_list_nonempty in Hids. apply collections_available in Hcs.
  eexists. split.
  - unfold process_projects_and_collection.
    do 5 (eapply bind_return; [reflexivity | ]).
    eapply bind_return; [exact Hx | ].
    rewrite Hids. simpl negb. cbv iota.
    eapply bind_return; [exact Hc | ].
    rewrite Hcs.
    eapply bind_return; [exact Hf | ].
    rewrite Hfound. simpl negb. cbv iota.
    apply bind_raise. apply bind_raise. exact Hcreate.
  - simpl_calls. now rewrite <- !app_assoc.
Qed.

(** Projects, collections and a group to attach to: whatever the attach
    gives, the run returns the batch. *)
Lemma process_attach fuel self prefix name output_file e ids found e3 ct g e4 t4 cid b e5 t5 :
  matched fuel self prefix name e ids found e3 ct ->
  settle self name ids found e3 = (Return g, e4, t4) ->
  has_id g cid ->
  add_projects_to_collection self cid ids name e4 = (Return b, e5, t5) ->
  exists t,
    process_projects_and_collection fuel self prefix name output_file e
    = (Return ids, fst (saved ids output_file b e5), t) /\
    calls t = ct ++ calls t4 ++ calls t5 ++ snd (saved ids output_file b e5).
Proof.
  intros (e1 & t1 & cs & e2 & t2 & t3 & Hx & Hids & Hc & Hcs & Hf & ->)
         Hsettle (gf & -> & Hid) Hadd.
  apply truthy_list_nonempty in Hids. apply collections_available in Hcs.
  assert (Hsub : forall e', py_subscript (VDict gf) "id" e' = (Return cid, e', []))
    by (intros e'; simpl; now rewrite Hid).
  assert (Hget : forall e', py_get (VDict gf) "id" (VStr "Unknown") e' = (Return cid, e', []))
    by (intros e'; simpl; now rewrite Hid).
  assert (Htail : exists tr,
    (if b then
       print dashes ;;;
       print (fstring ["Successfully processed "; str_len ids; " projects"]) ;;;
       collection_id <- py_get (VDict gf) "id" (VStr "Unknown") ;;
       print (fstring ["Collection: "; name; " (ID: "; py_str collection_id; ")"]) ;;;
       when (truthy_opt output_file) (save_project_ids self ids output_file) ;;;
       ret ids
     else
       print dashes ;;;
       print "Failed to add projects to collection" ;;;
       ret ids) e5
    = (Return ids, fst (saved ids output_file b e5), tr) /\
    calls tr = snd (saved ids output_file b e5)).
  { unfold saved. destruct b; simpl andb.
    - destruct (truthy_opt output_file) eqn:Hout.
      + destruct (save_project_ids_given self ids output_file e5 Hout) as (ts & Hs & Hcs').
        eexists. split.
        * do 2 (eapply bind_return; [reflexivity | ]).
          eapply bind_return; [apply Hget | ].
          eapply bind_return; [reflexivity | ].
          eapply bind_return; [exact Hs | ].
          reflexivity.
        * simpl_calls. now rewrite Hcs'.
      + eexists. split.
        * do 2 (eapply bind_return; [reflexivity | ]).
          eapply bind_return; [apply Hget | ].
          eapply bind_return; [reflexivity | ].
          eapply bind_return; [reflexivity | ].
          reflexivity.
        * now simpl_calls.
    - eexists. split.
      + do 2 (eapply bind_return; [reflexivity | ]). reflexivity.
      + now simpl_calls. }
  destruct Htail as (tr & Htail & Hctr).
  unfold settle in Hsettle.
  destruct (truthy found) eqn:Hfound; simpl negb in Hsettle; cbv iota in Hsettle.
  - inversion Hsettle; subst. eexists. split.
    + unfold process_projects_and_collection.
      do 5 (eapply bind_return; [reflexivity | ]).
      eapply bind_return; [exact Hx | ].
      rewrite Hids. simpl negb. cbv iota.
      eapply bind_return; [exact Hc | ].
      rewrite Hcs.
      eapply bind_return; [exact Hf | ].
      rewrite Hfound. simpl negb. cbv iota.
      eapply bind_return.
      { eapply bind_return; [apply Hsub | ].
        eapply bind_return; [reflexivity | ].
        eapply bind_return; [apply Hsub | ].
        eapply bind_return; [exact Hadd | ].
        reflexivity. }
      exact Htail.
    + simpl_calls. rewrite Hctr. now rewrite <- !app_assoc.
  - eexists. split.
    + unfold process_projects_and_collection.
      do 5 (eapply bind_return; [reflexivity | ]).
      eapply bind_return; [exact Hx | ].
      rewrite Hids. simpl negb. cbv iota.
      eapply bind_return; [exact Hc | ].
      rewrite Hcs.
      eapply bind_return; [exact Hf | ].
      rewrite Hfound. simpl negb. cbv iota.
      eapply bind_return.
      { eapply bind_return; [exact Hsettle | ].
        eapply bind_return; [apply Hsub | ].
        eapply bind_return; [exact Hadd | ].
        reflexivity. }
      exact Htail.
    + simpl_calls. rewrite Hctr. now rewrite <- !app_assoc.
Qed.


(** Past the credentials and the dry-run test, [main] runs the manager
    and exits with 0 when it returns a non-empty list, with 1 when it
    returns the empty list; an exception of the run goes through. *)
Lemma main_runs_process fuel args e token org e0 t0 o e1 t1 :
  resolve_credentials args e = (Return (token, org), e0, t0) ->
  truthy token = true ->
  truthy org = true ->
  arg_dry_run args = false ->
  process_projects_and_collection fuel (init token org)
    (arg_prefix args) (arg_collection args) (arg_output args) e0 = (o, e1, t1) ->
  exists t,
    main fuel args e
    = (match o with
       | Return ids => Raise (SystemExit (if truthy (VList ids) then 0 else 1))
       | Raise x => Raise x
       | Diverge => Diverge
       end, e1, t) /\
    calls t = calls t0 ++ calls t1.
Proof.
  intros Hcred Htoken Horg Hdry Hrun.
  destruct o as [ids | x | ].
  - destruct (truthy (VList ids)) eqn:Hids; eexists; (split; [
      unfold main;
      eapply bind_return; [exact Hcred | ];
      cbv beta iota; rewrite Htoken, Horg, Hdry; simpl negb; simpl orb; cbv iota;
      eapply bind_return; [exact Hrun | ];
      rewrite Hids;
      repeat (eapply bind_return; [reflexivity | ]);
      reflexivity
    | now simpl_calls ]).
  - eexists. split.
    + unfold main. eapply bind_return; [exact Hcred | ].
      cbv beta iota. rewrite Htoken, Horg, Hdry. simpl negb. simpl orb. cbv iota.
      apply bind_raise. exact Hrun.
    + now simpl_calls.
  - eexists. split.
    + unfold main. eapply bind_return; [exact Hcred | ].
      cbv beta iota. rewrite Htoken, Horg, Hdry. simpl negb. simpl orb. cbv iota.
      apply bind_diverge. exact Hrun.
    + now simpl_calls.
Qed.

(** *** What never writes a file *)

Lemma writes_app t1 t2 : writes (t1 ++ t2) = writes t1 ++ writes t2.
Proof. apply filter_app. Qed.

Lemma writes_calls t : writes (calls t) = writes t.
Proof.
  induction t as [ | ev t IH]; [reflexivity | ].
  destruct ev; unfold calls, writes in *; simpl; rewrite ?IH; reflexivity.
Qed.

Lemma wn_ret {A : Type} (a : A) : writes_nothing (ret a).
Proof. intros e. reflexivity. Qed.

Lemma wn_raise {A : Type} x : writes_nothing (@raise _ A x).
Proof. intros e. reflexivity. Qed.

Lemma wn_diverge {A : Type} : writes_nothing (@diverge _ A).
Proof. intros e. reflexivity. Qed.

Lemma wn_print line : writes_nothing (print line).
Proof. intros e. reflexivity. Qed.

Lemma wn_http_get url hs : writes_nothing (http_get url hs).
Proof. intros e. unfold http_get. now destruct (requests_get url hs e) as [[x | body] e1]. Qed.

Lemma wn_http_post url hs payload : writes_nothing (http_post url hs payload).
Proof.
  intros e. unfold http_post.
  now destruct (requests_post url hs payload e) as [[x | body] e1].
Qed.

Lemma wn_bind {A B : Type} (m : M A) (k : A -> M B) :
  writes_nothing m -> (forall a, writes_nothing (k a)) -> writes_nothing (bind m k).
Proof.
  intros Hm Hk e. specialize (Hm e). unfold bind.
  destruct (m e) as [[[a | x | ] e1] t1]; simpl in *; try exact Hm.
  specialize (Hk a e1). destruct (k a e1) as [[o e2] t2]. simpl in *.
  now rewrite writes_app, Hm, Hk.
Qed.

Lemma wn_try {A : Type} (body : M A) handler :
  writes_nothing body -> (forall x, writes_nothing (handler x)) ->
  writes_nothing (try_except body handler).
Proof.
  intros Hb Hh e. specialize (Hb e). unfold try_except.
  destruct (body e) as [[[a | x | ] e1] t1]; simpl in *; try exact Hb.
  destruct x as [x | | | | | ]; try exact Hb.
  specialize (Hh x e1). destruct (handler x e1) as [[o e2] t2]. simpl in *.
  now rewrite writes_app, Hb, Hh.
Qed.

Lemma wn_py_get v key default : writes_nothing (py_get v key default).
Proof.
  destruct v; simpl; try apply wn_raise. destruct (lookup key fields); apply wn_ret.
Qed.

Lemma wn_py_subscript v key : writes_nothing (py_subscript v key).
Proof.
  destruct v; simpl; try apply wn_raise.
  destruct (lookup key fields); [apply wn_ret | apply wn_raise].
Qed.

Lemma wn_py_extend acc v : writes_nothing (py_extend acc v).
Proof. unfold py_extend. destruct (py_iter v); [apply wn_ret | apply wn_raise]. Qed.

Lemma wn_py_len v : writes_nothing (py_len v).
Proof. unfold py_len. destruct (py_iter v); [apply wn_ret | apply wn_raise]. Qed.

(** Goes through a piece of script made of the operations above. *)
Ltac wn :=
  repeat first
    [ apply wn_ret | apply wn_raise | apply wn_diverge | apply wn_print
    | apply wn_http_get | apply wn_http_post
    | apply wn_py_get | apply wn_py_subscript | apply wn_py_extend | apply wn_py_len
    | assumption
    | apply wn_bind; [ | intros ? ]
    | apply wn_try; [ | intros ? ]
    | match goal with
      | |- writes_nothing (if ?c then _ else _) => destruct c
      | |- writes_nothing (match ?x with _ => _ end) => destruct x
      | |- writes_nothing (sys_exit _) => apply wn_raise
      end ].

Lemma wn_fetch_pages noun fuel self :
  forall url acc, writes_nothing (fetch_pages noun fuel self url acc).
Proof.
  induction fuel as [ | fuel IH]; intros url acc; simpl; wn. apply IH.
Qed.

Lemma wn_print_entries entries : writes_nothing (print_entries entries).
Proof. induction entries as [ | c rest IH]; simpl; wn. Qed.

Lemma wn_find_in_collections cs name : writes_nothing (find_in_collections cs name).
Proof. induction cs as [ | c rest IH]; simpl; wn. Qed.

Lemma wn_ids_of projects : writes_nothing (ids_of projects).
Proof. induction projects as [ | p rest IH]; simpl; wn. Qed.

Lemma wn_print_numbered ids : forall i, writes_nothing (print_numbered i ids).
Proof. induction ids as [ | id rest IH]; intros i; simpl; wn. apply IH. Qed.

Lemma wn_create_rec depth self name :
  forall project_ids, writes_nothing (create_collection_rec depth self name project_ids).
Proof.
  induction depth as [ | depth IH]; intros project_ids; simpl; wn; apply IH.
Qed.

(** The loops done, the functions follow. *)
Ltac wn_loops :=
  wn; auto using wn_fetch_pages, wn_print_entries, wn_find_in_collections, wn_ids_of,
                 wn_print_numbered, wn_create_rec.

Lemma wn_get_projects fuel self name_prefix :
  writes_nothing (get_projects_by_name_prefix fuel self name_prefix).
Proof. unfold get_projects_by_name_prefix. wn_loops. Qed.

Lemma wn_get_collections fuel self : writes_nothing (get_collections fuel self).
Proof. unfold get_collections. wn_loops. Qed.

Lemma wn_find_collection fuel self name :
  writes_nothing (find_collection_by_name fuel self name).
Proof. unfold find_collection_by_name. wn_loops. Qed.

Lemma wn_extract fuel self name_prefix :
  writes_nothing (extract_project_ids fuel self name_prefix).
Proof. unfold extract_project_ids. wn_loops. Qed.

Lemma wn_add_projects self cid ids name :
  writes_nothing (add_projects_to_collection self cid ids name).
Proof. unfold add_projects_to_collection. wn_loops. Qed.

Lemma wn_settle self name ids found : writes_nothing (settle self name ids found).
Proof. unfold settle, create_collection. wn_loops. Qed.

(** What is known of a run up to the lookup has not written anything. *)
Lemma matched_writes fuel self prefix name e ids found e3 ct :
  matched fuel self prefix name e ids found e3 ct -> writes ct = [].
Proof.
  intros (e1 & t1 & cs & e2 & t2 & t3 & Hx & _ & Hc & _ & Hf & ->).
  pose proof (wn_extract fuel self prefix e) as H1. rewrite Hx in H1.
  pose proof (wn_get_collections fuel self e1) as H2. rewrite Hc in H2.
  pose proof (wn_find_collection fuel self name e2) as H3. rewrite Hf in H3.
  simpl in H1, H2, H3. now rewrite !writes_app, !writes_calls, H1, H2, H3.
Qed.


(** *** Claims on the listings and the matcher *)

(** C4. A listing served in pages, each with its entries under [data]
    and a [links.next] URL when a further page exists, is returned by
    [get_projects_by_name_prefix] and by [get_collections] as the
    concatenation of the pages' entries in the order the pages were
    fetched, with one request per page; in particular the three pages of
    sizes 2, 2 and 1 give the five entries in their original order. *)
Theorem paginated_listing_in_page_order :
  (forall fuel self name_prefix pages e e',
      serves (headers self) (VStr (projects_url self name_prefix)) pages e e' ->
      List.length pages <= fuel ->
      Forall is_record (concat pages) ->
      exists t,
        get_projects_by_name_prefix fuel self name_prefix e = (Return (concat pages), e', t) /\
        List.length (calls t) = List.length pages) /\
  (forall fuel self pages e e',
      serves (headers self) (VStr (collections_url self)) pages e e' ->
      List.length pages <= fuel ->
      Forall is_record (concat pages) ->
      exists t,
        get_collections fuel self e = (Return (concat pages), e', t) /\
        List.length (calls t) = List.length pages) /\
  (outcome_of (get_projects_by_name_prefix (outside := scripted) 3 example_manager "svc-"
                 three_pages)
   = Return [entry "p1" "svc-auth"; entry "p2" "svc-db"; entry "p3" "svc-mail";
             entry "p4" "svc-pay"; entry "p5" "svc-web"] /\
   outcome_of (get_collections (outside := scripted) 3 example_manager three_pages)
   = Return [entry "p1" "svc-auth"; entry "p2" "svc-db"; entry "p3" "svc-mail";
             entry "p4" "svc-pay"; entry "p5" "svc-web"]).
Proof.
  split; [ | split; [ | split]].
  - intros. now apply get_projects_serves.
  - intros. now apply get_collections_serves.
  - vm_compute. reflexivity.
  - vm_compute. reflexivity.
Qed.

(** C5. On the entries [get_collections] returned,
    [find_collection_by_name] gives the first entry, in list order, whose
    name attribute is exactly the target string, and [None] (no error)
    when no entry has that name; a collection named "Backend" is not
    found under "backend". *)
Theorem find_collection_by_name_first_exact_match :
  (forall fuel self collection_name e cs e1 t1,
      get_collections fuel self e = (Return cs, e1, t1) ->
      exists r,
        find_collection_by_name fuel self collection_name e = (Return r, e1, t1) /\
        ((r = VNone /\ forall c, In c cs -> ~ named collection_name c) \/
         (exists pre post,
            cs = pre ++ r :: post /\ named collection_name r /\
            forall c, In c pre -> ~ named collection_name c))) /\
  (outcome_of (find_collection_by_name (outside := scripted) 1 example_manager "backend"
                 [HttpOk (page [entry "c1" "Backend"] None)])
   = Return VNone /\
   outcome_of (find_collection_by_name (outside := scripted) 1 example_manager "Backend"
                 [HttpOk (page [entry "c1" "Backend"] None)])
   = Return (entry "c1" "Backend")).
Proof.
  split.
  - intros fuel self collection_name e cs e1 t1 Hget.
    destruct (find_in_collections_first cs collection_name e1) as (r & Hr & Hcase).
    { eapply get_collections_records; eassumption. }
    exists r. split; [ | exact Hcase].
    unfold find_collection_by_name.
    rewrite <- (app_nil_r t1). eapply bind_return; eassumption.
  - split; vm_compute; reflexivity.
Qed.


(** *** Claims on the run *)

(** The payloads and URLs of the requests, written out. *)
Lemma create_payload_inline name ids :
  ids <> [] ->
  create_payload name (Some ids)
  = VDict [("data",
            VDict [("type", VStr "collection");
                   ("attributes", VDict [("name", VStr name)]);
                   ("relationships",
                    VDict [("projects", VDict [("data",
                        VList (map
                           (fun id => VDict [("id", id); ("type", VStr "project")]) ids))])])])].
Proof. intros H. unfold create_payload. now rewrite (ids_given_some ids H). Qed.

(** C2. When the creation request with the batch inline fails,
    [create_collection] sends one more creation request, with the name
    only.  If that one fails too the process ends with exit code 1; if it
    succeeds the created group is returned, and the run goes on to
    attach the batch to it.  The requests are written out: the first
    creation carries the name and, under [relationships], one reference
    per id of the batch; the second carries the name alone; the attach
    goes to the relationships endpoint of the created collection and
    carries one reference per id of the batch. *)
Theorem create_collection_falls_back_once :
  (forall self name ids e x e1 y e2,
      ids <> [] ->
      requests_post
        (VStr (fstring [base_url self; "/orgs/"; py_str (org_id self);
                        "/collections?version="; api_version self]))
        (headers self)
        (VDict [("data",
                 VDict [("type", VStr "collection");
                        ("attributes", VDict [("name", VStr name)]);
                        ("relationships",
                         VDict [("projects", VDict [("data",
                             VList (map
                                (fun id => VDict [("id", id); ("type", VStr "project")]) ids))])])])]) e = (HttpError x, e1) ->
      requests_post
        (VStr (fstring [base_url self; "/orgs/"; py_str (org_id self);
                        "/collections?version="; api_version self]))
        (headers self)
        (VDict [("data",
                 VDict [("type", VStr "collection");
                        ("attributes", VDict [("name", VStr name)])])]) e1 = (HttpError y, e2) ->
      exists t,
        create_collection self name (Some ids) e = (Raise (SystemExit 1), e2, t) /\
        calls t = [CallPost
                     (VStr (fstring [base_url self; "/orgs/"; py_str (org_id self);
                                     "/collections?version="; api_version self]))
                     (headers self)
                     (VDict [("data",
                              VDict [("type", VStr "collection");
                                     ("attributes", VDict [("name", VStr name)]);
                                     ("relationships",
                                      VDict [("projects", VDict [("data",
                                          VList (map
                                             (fun id => VDict [("id", id); ("type", VStr "project")]) ids))])])])]);
                   CallPost
                     (VStr (fstring [base_url self; "/orgs/"; py_str (org_id self);
                                     "/collections?version="; api_version self]))
                     (headers self)
                     (VDict [("data",
                              VDict [("type", VStr "collection");
                                     ("attributes", VDict [("name", VStr name)])])])]) /\
  (forall self name ids e x e1 fields g e2,
      ids <> [] ->
      requests_post
        (VStr (fstring [base_url self; "/orgs/"; py_str (org_id self);
                        "/collections?version="; api_version self]))
        (headers self)
        (VDict [("data",
                 VDict [("type", VStr "collection");
                        ("attributes", VDict [("name", VStr name)]);
                        ("relationships",
                         VDict [("projects", VDict [("data",
                             VList (map
                                (fun id => VDict [("id", id); ("type", VStr "project")]) ids))])])])]) e = (HttpError x, e1) ->
      requests_post
        (VStr (fstring [base_url self; "/orgs/"; py_str (org_id self);
                        "/collections?version="; api_version self]))
        (headers self)
        (VDict [("data",
                 VDict [("type", VStr "collection");
                        ("attributes", VDict [("name", VStr name)])])]) e1 = (HttpOk (VDict fields), e2) ->
      lookup "data" fields = Some (VDict g) ->
      exists t,
        create_collection self name (Some ids) e = (Return (VDict g), e2, t) /\
        calls t = [CallPost
                     (VStr (fstring [base_url self; "/orgs/"; py_str (org_id self);
                                     "/collections?version="; api_version self]))
                     (headers self)
                     (VDict [("data",
                              VDict [("type", VStr "collection");
                                     ("attributes", VDict [("name", VStr name)]);
                                     ("relationships",
                                      VDict [("projects", VDict [("data",
                                          VList (map
                                             (fun id => VDict [("id", id); ("type", VStr "project")]) ids))])])])]);
                   CallPost
                     (VStr (fstring [base_url self; "/orgs/"; py_str (org_id self);
                                     "/collections?version="; api_version self]))
                     (headers self)
                     (VDict [("data",
                              VDict [("type", VStr "collection");
                                     ("attributes", VDict [("name", VStr name)])])])]) /\
  (forall fuel args e token org e0 t0 ids found e3 ct x e4 y e5,
      resolve_credentials args e = (Return (token, org), e0, t0) ->
      truthy token = true -> truthy org = true -> arg_dry_run args = false ->
      matched fuel (init token org) (arg_prefix args) (arg_collection args) e0
        ids found e3 ct ->
      truthy found = false ->
      requests_post
        (VStr (fstring ["https://api.snyk.io/rest"; "/orgs/"; py_str org;
                        "/collections?version="; "2024-10-15"]))
        (headers (init token org))
        (VDict [("data",
                 VDict [("type", VStr "collection");
                        ("attributes", VDict [("name", VStr (arg_collection args))]);
                        ("relationships",
                         VDict [("projects", VDict [("data",
                             VList (map
                                (fun id => VDict [("id", id); ("type", VStr "project")]) ids))])])])]) e3 = (HttpError x, e4) ->
      requests_post
        (VStr (fstring ["https://api.snyk.io/rest"; "/orgs/"; py_str org;
                        "/collections?version="; "2024-10-15"]))
        (headers (init token org))
        (VDict [("data",
                 VDict [("type", VStr "collection");
                        ("attributes", VDict [("name", VStr (arg_collection args))])])]) e4 = (HttpError y, e5) ->
      exit_code (outcome_of (main fuel args e)) = Some 1%Z) /\
  (forall fuel self prefix name output_file e ids found e3 ct x e4 fields g cid e5,
      matched fuel self prefix name e ids found e3 ct ->
      truthy found = false ->
      requests_post
        (VStr (fstring [base_url self; "/orgs/"; py_str (org_id self);
                        "/collections?version="; api_version self]))
        (headers self)
        (VDict [("data",
                 VDict [("type", VStr "collection");
                        ("attributes", VDict [("name", VStr name)]);
                        ("relationships",
                         VDict [("projects", VDict [("data",
                             VList (map
                                (fun id => VDict [("id", id); ("type", VStr "project")]) ids))])])])]) e3 = (HttpError x, e4) ->
      requests_post
        (VStr (fstring [base_url self; "/orgs/"; py_str (org_id self);
                        "/collections?version="; api_version self]))
        (headers self)
        (VDict [("data",
                 VDict [("type", VStr "collection");
                        ("attributes", VDict [("name", VStr name)])])]) e4 = (HttpOk (VDict fields), e5) ->
      lookup "data" fields = Some (VDict g) ->
      lookup "id" g = Some cid ->
      exists b e6 t,
        process_projects_and_collection fuel self prefix name output_file e
        = (Return ids, fst (saved ids output_file b e6), t) /\
        calls t = ct ++
                  [CallPost
                     (VStr (fstring [base_url self; "/orgs/"; py_str (org_id self);
                                     "/collections?version="; api_version self]))
                     (headers self)
                     (VDict [("data",
                              VDict [("type", VStr "collection");
                                     ("attributes", VDict [("name", VStr name)]);
                                     ("relationships",
                                      VDict [("projects", VDict [("data",
                                          VList (map
                                             (fun id => VDict [("id", id); ("type", VStr "project")]) ids))])])])]);
                   CallPost
                     (VStr (fstring [base_url self; "/orgs/"; py_str (org_id self);
                                     "/collections?version="; api_version self]))
                     (headers self)
                     (VDict [("data",
                              VDict [("type", VStr "collection");
                                     ("attributes", VDict [("name", VStr name)])])]);
                   CallPost
                     (VStr (fstring [base_url self; "/orgs/"; py_str (org_id self); "/collections/";
                                     py_str cid; "/relationships/projects?version="; api_version self]))
                     (headers self)
                     (VDict [("data",
                         VList (map
                            (fun id => VDict [("id", id); ("type", VStr "project")]) ids))])] ++
                  snd (saved ids output_file b e6)).
Proof.
  assert (Hfatal : forall self name ids e x e1 y e2,
      ids <> [] ->
      requests_post (VStr (collections_url self)) (headers self)
        (create_payload name (Some ids)) e = (HttpError x, e1) ->
      requests_post (VStr (collections_url self)) (headers self)
        (create_payload name None) e1 = (HttpError y, e2) ->
      exists t,
        create_collection self name (Some ids) e = (Raise (SystemExit 1), e2, t) /\
        calls t = [CallPost (VStr (collections_url self)) (headers self)
                     (create_payload name (Some ids));
                   CallPost (VStr (collections_url self)) (headers self)
                     (create_payload name None)]).
  { intros self name ids e x e1 y e2 Hids H1 H2.
    destruct (create_collection_rec_fatal 0 self name e1 y e2 H2) as (t2 & Ht2 & Hc2).
    destruct (create_collection_rec_fallback 1 self name ids e x e1 _ _ _ Hids H1 Ht2)
      as (t & Ht & Hc).
    exists t. split; [exact Ht | now rewrite Hc, Hc2]. }
  assert (Hok : forall self name ids e x e1 fields g e2,
      ids <> [] ->
      requests_post (VStr (collections_url self)) (headers self)
        (create_payload name (Some ids)) e = (HttpError x, e1) ->
      requests_post (VStr (collections_url self)) (headers self)
        (create_payload name None) e1 = (HttpOk (VDict fields), e2) ->
      lookup "data" fields = Some (VDict g) ->
      exists t,
        create_collection self name (Some ids) e = (Return (VDict g), e2, t) /\
        calls t = [CallPost (VStr (collections_url self)) (headers self)
                     (create_payload name (Some ids));
                   CallPost (VStr (collections_url self)) (headers self)
                     (create_payload name None)]).
  { intros self name ids e x e1 fields g e2 Hids H1 H2 Hdata.
    destruct (create_collection_rec_ok 0 self name None e1 fields g e2 H2 Hdata)
      as (t2 & Ht2 & Hc2).
    destruct (create_collection_rec_fallback 1 self name ids e x e1 _ _ _ Hids H1 Ht2)
      as (t & Ht & Hc).
    exists t. split; [exact Ht | now rewrite Hc, Hc2]. }
  split; [ | split; [ | split]].
  - intros self name ids e x e1 y e2 Hids H1 H2.
    rewrite <- (create_payload_inline name ids Hids) in H1 |- *.
    exact (Hfatal self name ids e x e1 y e2 Hids H1 H2).
  - intros self name ids e x e1 fields g e2 Hids H1 H2 Hdata.
    rewrite <- (create_payload_inline name ids Hids) in H1 |- *.
    exact (Hok self name ids e x e1 fields g e2 Hids H1 H2 Hdata).
  - intros fuel args e token org e0 t0 ids found e3 ct x e4 y e5
           Hcred Htoken Horg Hdry Hm Hfound H1 H2.
    assert (Hids : ids <> []) by (destruct Hm as (? & ? & ? & ? & ? & ? & _ & H & _); exact H).
    rewrite <- (create_payload_inline (arg_collection args) ids Hids) in H1.
    destruct (Hfatal (init token org) _ _ _ _ _ _ _ Hids H1 H2) as (t4 & Hcreate & _).
    destruct (process_create_raises fuel _ _ _ (arg_output args) _ _ _ _ _ _ _ _
                Hm Hfound Hcreate) as (t & Hrun & _).
    destruct (main_runs_process _ _ _ _ _ _ _ _ _ _ Hcred Htoken Horg Hdry Hrun)
      as (tm & Hmain & _).
    rewrite Hmain. reflexivity.
  - intros fuel self prefix name output_file e ids found e3 ct x e4 fields g cid e5
           Hm Hfound H1 H2 Hdata Hid.
    assert (Hids : ids <> []) by (destruct Hm as (? & ? & ? & ? & ? & ? & _ & H & _); exact H).
    rewrite <- (create_payload_inline name ids Hids) in H1 |- *.
    destruct (Hok _ _ _ _ _ _ _ _ _ Hids H1 H2 Hdata) as (t4 & Hcreate & Hc4).
    destruct (add_projects_to_collection_returns self cid ids name e5 Hids)
      as (b & e6 & t5 & Hadd & Hc5).
    assert (Hsettle : settle self name ids found e3 = (Return (VDict g), e5, t4))
      by (unfold settle; now rewrite Hfound).
    destruct (process_attach fuel self prefix name output_file _ _ _ _ _ _ _ _ cid _ _ _
                Hm Hsettle (ex_intro _ g (conj eq_refl Hid)) Hadd) as (t & Hrun & Hc).
    exists b, e6, t. split; [exact Hrun | ]. now rewrite Hc, Hc4, Hc5.
Qed.

(** C3. When at least one project id was extracted and the listing of
    collections fails with a 404, the run prints that collections are
    not available, still returns all the extracted ids, and the process
    exits with code 0. *)
Theorem collections_not_found_is_degraded_success
    fuel args e token org e0 t0 ids e1 t1 x e2 t2 :
  resolve_credentials args e = (Return (token, org), e0, t0) ->
  truthy token = true -> truthy org = true -> arg_dry_run args = false ->
  extract_project_ids fuel (init token org) (arg_prefix args) e0 = (Return ids, e1, t1) ->
  ids <> [] ->
  get_collections_try fuel (init token org) e1 = (Raise (RequestException x), e2, t2) ->
  status_code x = Some 404%Z ->
  (exists t,
      process_projects_and_collection fuel (init token org) (arg_prefix args)
        (arg_collection args) (arg_output args) e0 = (Return ids, e2, t) /\
      In (Print "⚠️  Collections are not available for this organization (404 Not Found)") t) /\
  exit_code (outcome_of (main fuel args e)) = Some 0%Z.
Proof.
  intros Hcred Htoken Horg Hdry Hx Hids Hb H404.
  destruct (get_collections_caught_404 _ _ _ _ _ _ Hb H404) as (tc & Hc & Hin).
  destruct (process_unavailable fuel (init token org) (arg_prefix args) (arg_collection args)
              (arg_output args) _ _ _ _ _ _ Hx Hids Hc) as (t & Hrun & _ & _ & Hincl).
  split.
  - exists t. split; [exact Hrun | now apply Hincl].
  - destruct (main_runs_process _ _ _ _ _ _ _ _ _ _ Hcred Htoken Horg Hdry Hrun)
      as (tm & Hmain & _).
    rewrite Hmain. apply truthy_list_nonempty in Hids. now rewrite Hids.
Qed.

(** C6. When the listing of projects for the prefix gives no project,
    the run returns the empty list of ids and the process exits with
    code 1. *)
Theorem no_matching_project_exits_1 fuel args e token org e0 t0 e1 t1 :
  resolve_credentials args e = (Return (token, org), e0, t0) ->
  truthy token = true -> truthy org = true -> arg_dry_run args = false ->
  get_projects_by_name_prefix fuel (init token org) (arg_prefix args) e0
  = (Return [], e1, t1) ->
  (exists t,
      process_projects_and_collection fuel (init token org) (arg_prefix args)
        (arg_collection args) (arg_output args) e0 = (Return [], e1, t)) /\
  exit_code (outcome_of (main fuel args e)) = Some 1%Z.
Proof.
  intros Hcred Htoken Horg Hdry Hp.
  destruct (extract_project_ids_none _ _ _ _ _ _ Hp) as (tx & Hx & _).
  destruct (process_no_projects fuel (init token org) (arg_prefix args) (arg_collection args)
              (arg_output args) _ _ _ _ Hx eq_refl) as (t & Hrun & _).
  split.
  - now exists t.
  - destruct (main_runs_process _ _ _ _ _ _ _ _ _ _ Hcred Htoken Horg Hdry Hrun)
      as (tm & Hmain & _).
    rewrite Hmain. reflexivity.
Qed.


(** C7, as the code has it.  When at least one project id was
    extracted, the run returns all the extracted ids if the list of
    collections comes back empty, and if it reaches the attach step,
    whether the attach request then succeeds or fails; but when the
    collection has to be created and the creation fails for good, the
    run does not return: the process ends with exit code 1. *)
Theorem process_returns_extracted_ids_unless_creation_is_fatal :
  (forall fuel self prefix name output_file e ids e1 t1 e2 t2,
      extract_project_ids fuel self prefix e = (Return ids, e1, t1) ->
      ids <> [] ->
      get_collections fuel self e1 = (Return [], e2, t2) ->
      exists t,
        process_projects_and_collection fuel self prefix name output_file e
        = (Return ids, e2, t)) /\
  (forall fuel self prefix name output_file e ids found e3 ct g e4 t4 cid r e5,
      matched fuel self prefix name e ids found e3 ct ->
      settle self name ids found e3 = (Return g, e4, t4) ->
      has_id g cid ->
      requests_post (VStr (relationships_url self cid)) (headers self)
        (attach_payload ids) e4 = (r, e5) ->
      exists t,
        process_projects_and_collection fuel self prefix name output_file e
        = (Return ids, fst (saved ids output_file (succeeded r) e5), t)) /\
  (forall fuel self prefix name output_file e ids found e3 ct e4 t4,
      matched fuel self prefix name e ids found e3 ct ->
      truthy found = false ->
      create_collection self name (Some ids) e3 = (Raise (SystemExit 1), e4, t4) ->
      exists t,
        process_projects_and_collection fuel self prefix name output_file e
        = (Raise (SystemExit 1), e4, t)).
Proof.
  split; [ | split].
  - intros fuel self prefix name output_file e ids e1 t1 e2 t2 Hx Hids Hc.
    destruct (process_unavailable fuel self prefix name output_file _ _ _ _ _ _ Hx Hids Hc)
      as (t & Hrun & _).
    now exists t.
  - intros fuel self prefix name output_file e ids found e3 ct g e4 t4 cid r e5
           Hm Hsettle Hid Hpost.
    assert (Hids : ids <> []) by (destruct Hm as (? & ? & ? & ? & ? & ? & _ & H & _); exact H).
    destruct (add_projects_to_collection_post self cid ids name e4 r e5 Hids Hpost)
      as (t5 & Hadd & _).
    destruct (process_attach fuel self prefix name output_file _ _ _ _ _ _ _ _ cid _ _ _
                Hm Hsettle Hid Hadd) as (t & Hrun & _).
    now exists t.
  - intros fuel self prefix name output_file e ids found e3 ct e4 t4 Hm Hfound Hcreate.
    destruct (process_create_raises fuel self prefix name output_file _ _ _ _ _ _ _ _
                Hm Hfound Hcreate) as (t & Hrun & _).
    now exists t.
Qed.

(** C8. When the collection is created by the request that carries the
    projects inline, the run still sends, right after it, the attach
    request to the relationships endpoint of the new collection, with
    the whole batch.  Both requests are written out: the creation
    carries the name and, under [relationships], one reference per id of
    the batch; the attach goes to
    [.../collections/<id>/relationships/projects] and carries one
    reference per id of the batch, in the order of the batch. *)
Theorem attach_follows_inline_creation
    fuel self prefix name output_file e ids found e3 ct fields g cid e4 :
  matched fuel self prefix name e ids found e3 ct ->
  truthy found = false ->
  requests_post
    (VStr (fstring [base_url self; "/orgs/"; py_str (org_id self);
                    "/collections?version="; api_version self]))
    (headers self)
    (VDict [("data",
             VDict [("type", VStr "collection");
                    ("attributes", VDict [("name", VStr name)]);
                    ("relationships",
                     VDict [("projects", VDict [("data",
                         VList (map
                            (fun id => VDict [("id", id); ("type", VStr "project")]) ids))])])])]) e3 = (HttpOk (VDict fields), e4) ->
  lookup "data" fields = Some (VDict g) ->
  lookup "id" g = Some cid ->
  exists b e5 t,
    process_projects_and_collection fuel self prefix name output_file e
    = (Return ids, fst (saved ids output_file b e5), t) /\
    calls t = ct ++
              [CallPost
                 (VStr (fstring [base_url self; "/orgs/"; py_str (org_id self);
                                 "/collections?version="; api_version self]))
                 (headers self)
                 (VDict [("data",
                          VDict [("type", VStr "collection");
                                 ("attributes", VDict [("name", VStr name)]);
                                 ("relationships",
                                  VDict [("projects", VDict [("data",
                                      VList (map
                                         (fun id => VDict [("id", id); ("type", VStr "project")]) ids))])])])]);
               CallPost
                 (VStr (fstring [base_url self; "/orgs/"; py_str (org_id self); "/collections/";
                                 py_str cid; "/relationships/projects?version="; api_version self]))
                 (headers self)
                 (VDict [("data",
                     VList (map
                        (fun id => VDict [("id", id); ("type", VStr "project")]) ids))])] ++
              snd (saved ids output_file b e5).
Proof.
  intros Hm Hfound Hpost Hdata Hid.
  assert (Hids : ids <> []) by (destruct Hm as (? & ? & ? & ? & ? & ? & _ & H & _); exact H).
  rewrite <- (create_payload_inline name ids Hids) in Hpost |- *.
  destruct (create_collection_rec_ok 1 self name (Some ids) e3 fields g e4 Hpost Hdata)
    as (t4 & Hcreate & Hc4).
  destruct (add_projects_to_collection_returns self cid ids name e4 Hids)
    as (b & e5 & t5 & Hadd & Hc5).
  assert (Hsettle : settle self name ids found e3 = (Return (VDict g), e4, t4))
    by (unfold settle; now rewrite Hfound).
  destruct (process_attach fuel self prefix name output_file _ _ _ _ _ _ _ _ cid _ _ _
              Hm Hsettle (ex_intro _ g (conj eq_refl Hid)) Hadd) as (t & Hrun & Hc).
  exists b, e5, t. split; [exact Hrun | ]. now rewrite Hc, Hc4, Hc5.
Qed.

(** C10. The file of project ids is written only when the attach
    reported success (and an output path was given): a run that finds no
    collections, and a run whose attach fails, return the ids without
    any file write; a run whose attach succeeds writes the ids to the
    given path, once. *)
Theorem output_file_written_only_after_successful_attach :
  (forall fuel self prefix name output_file e ids e1 t1 e2 t2,
      extract_project_ids fuel self prefix e = (Return ids, e1, t1) ->
      ids <> [] ->
      get_collections fuel self e1 = (Return [], e2, t2) ->
      exists t,
        process_projects_and_collection fuel self prefix name output_file e
        = (Return ids, e2, t) /\
        writes t = []) /\
  (forall fuel self prefix name output_file e ids found e3 ct g e4 t4 cid b e5 t5,
      matched fuel self prefix name e ids found e3 ct ->
      settle self name ids found e3 = (Return g, e4, t4) ->
      has_id g cid ->
      add_projects_to_collection self cid ids name e4 = (Return b, e5, t5) ->
      exists e6 t,
        process_projects_and_collection fuel self prefix name output_file e
        = (Return ids, e6, t) /\
        writes t = if b && truthy_opt output_file
                   then [CallWrite (opt_string output_file) (id_lines ids)]
                   else []).
Proof.
  split.
  - intros fuel self prefix name output_file e ids e1 t1 e2 t2 Hx Hids Hc.
    destruct (process_unavailable fuel self prefix name output_file _ _ _ _ _ _ Hx Hids Hc)
      as (t & Hrun & Hcalls & _).
    exists t. split; [exact Hrun | ].
    pose proof (wn_extract fuel self prefix e) as H1. rewrite Hx in H1.
    pose proof (wn_get_collections fuel self e1) as H2. rewrite Hc in H2.
    simpl in H1, H2.
    now rewrite <- writes_calls, Hcalls, writes_app, !writes_calls, H1, H2.
  - intros fuel self prefix name output_file e ids found e3 ct g e4 t4 cid b e5 t5
           Hm Hsettle Hid Hadd.
    destruct (process_attach fuel self prefix name output_file _ _ _ _ _ _ _ _ cid _ _ _
                Hm Hsettle Hid Hadd) as (t & Hrun & Hcalls).
    exists (fst (saved ids output_file b e5)), t. split; [exact Hrun | ].
    pose proof (matched_writes _ _ _ _ _ _ _ _ _ Hm) as H1.
    pose proof (wn_settle self name ids found e3) as H2. rewrite Hsettle in H2.
    pose proof (wn_add_projects self cid ids name e4) as H3. rewrite Hadd in H3.
    simpl in H2, H3.
    rewrite <- writes_calls, Hcalls, !writes_app, !writes_calls, H1, H2, H3.
    unfold saved. now destruct (b && truthy_opt output_file).
Qed.


(** *** Configuration, credentials and [main] *)

Lemma load_config_loaded path e v e1 :
  read_config path e = (ConfigLoaded v, e1) ->
  load_config path e = (Return v, e1, [CallReadConfig path]).
Proof. intros H. unfold load_config, bind, config_read. now rewrite H. Qed.

Lemma load_config_fatal path e r e1 :
  read_config path e = (r, e1) ->
  r = ConfigNotFound \/ (exists text, r = ConfigDecodeError text) ->
  exists t,
    load_config path e = (Raise (SystemExit 1), e1, t) /\
    calls t = [CallReadConfig path].
Proof.
  intros H [-> | (text & ->)]; unfold load_config, bind, config_read; rewrite H;
    eexists; (split; [reflexivity | now simpl_calls]).
Qed.

Lemma needs_config args :
  truthy_opt (arg_token args) = false \/ truthy_opt (arg_org args) = false ->
  negb (truthy_opt (arg_token args)) || negb (truthy_opt (arg_org args)) = true.
Proof. intros [-> | ->]; [reflexivity | apply orb_true_r]. Qed.

(** X1. With [--dry-run] and credentials at hand, [main] only prints:
    it sends no request, writes no file, leaves the outside as the
    lookup of the credentials left it, and the exit code is 0. *)
Theorem dry_run_only_prints fuel args e token org e0 t0 :
  resolve_credentials args e = (Return (token, org), e0, t0) ->
  truthy token = true -> truthy org = true ->
  arg_dry_run args = true ->
  exists t,
    main fuel args e = (Return tt, e0, t) /\
    calls t = calls t0 /\
    exit_code (outcome_of (main fuel args e)) = Some 0%Z.
Proof.
  intros Hcred Htoken Horg Hdry.
  assert (H : exists t, main fuel args e = (Return tt, e0, t) /\ calls t = calls t0).
  { destruct (truthy_opt (arg_output args)) eqn:Hout; eexists; (split; [
      unfold main;
      eapply bind_return; [exact Hcred | ];
      cbv beta iota; rewrite Htoken, Horg, Hdry; simpl negb; simpl orb; cbv iota;
      do 3 (eapply bind_return; [reflexivity | ]);
      rewrite Hout; reflexivity
    | now simpl_calls ]). }
  destruct H as (t & Ht & Hc). exists t. rewrite Ht. now repeat split.
Qed.

(** X2. Without both credentials [main] stops with exit code 1 before
    any request: when the token or the organization id resolves to
    nothing, and when the configuration file it needs is missing or is
    not valid JSON (the only call made is the read of that file). *)
Theorem missing_credentials_exit_1 :
  (forall fuel args e token org e0 t0,
      resolve_credentials args e = (Return (token, org), e0, t0) ->
      truthy token = false \/ truthy org = false ->
      exists t,
        main fuel args e = (Raise (SystemExit 1), e0, t) /\ calls t = calls t0) /\
  (forall fuel args e r e1,
      truthy_opt (arg_token args) = false \/ truthy_opt (arg_org args) = false ->
      read_config (arg_config args) e = (r, e1) ->
      r = ConfigNotFound \/ (exists text, r = ConfigDecodeError text) ->
      exists t,
        main fuel args e = (Raise (SystemExit 1), e1, t) /\
        calls t = [CallReadConfig (arg_config args)]).
Proof.
  split.
  - intros fuel args e token org e0 t0 Hcred Hmiss.
    assert (Hc : negb (truthy token) || negb (truthy org) = true)
      by (destruct Hmiss as [-> | ->]; [reflexivity | apply orb_true_r]).
    eexists. split.
    + unfold main. eapply bind_return; [exact Hcred | ].
      cbv beta iota. rewrite Hc.
      do 2 (eapply bind_return; [reflexivity | ]). reflexivity.
    + now simpl_calls.
  - intros fuel args e r e1 Hmiss Hread Hr.
    destruct (load_config_fatal _ _ _ _ Hread Hr) as (t & Ht & Hc).
    exists t. split; [ | exact Hc].
    unfold main. apply bind_raise.
    unfold resolve_credentials. rewrite (needs_config args Hmiss).
    apply bind_raise. exact Ht.
Qed.

(** X3. Where the credentials come from.  With both given on the command
    line the configuration file is not read.  With one of them missing
    the file is read once; a value given on the command line still wins
    over the file's, the missing one is the file's ([None] when the file
    has no such key); and a file whose content is not an object makes
    the lookup fail with an [AttributeError]. *)
Theorem credentials_precedence :
  (forall args e,
      truthy_opt (arg_token args) = true -> truthy_opt (arg_org args) = true ->
      resolve_credentials args e
      = (Return (arg_value (arg_token args), arg_value (arg_org args)), e, [])) /\
  (forall args e fields e1,
      truthy_opt (arg_token args) = false \/ truthy_opt (arg_org args) = false ->
      read_config (arg_config args) e = (ConfigLoaded (VDict fields), e1) ->
      resolve_credentials args e
      = (Return
           (if truthy_opt (arg_token args) then arg_value (arg_token args)
            else match lookup "api_token" fields with Some v => v | None => VNone end,
            if truthy_opt (arg_org args) then arg_value (arg_org args)
            else match lookup "org_id" fields with Some v => v | None => VNone end),
         e1, [CallReadConfig (arg_config args)])) /\
  (forall args e v e1,
      truthy_opt (arg_token args) = false \/ truthy_opt (arg_org args) = false ->
      read_config (arg_config args) e = (ConfigLoaded v, e1) ->
      (forall fields, v <> VDict fields) ->
      resolve_credentials args e
      = (Raise AttributeError, e1, [CallReadConfig (arg_config args)])).
Proof.
  split; [ | split].
  - intros args e Ht Ho. unfold resolve_credentials. now rewrite Ht, Ho.
  - intros args e fields e1 Hmiss Hread.
    unfold resolve_credentials. rewrite (needs_config args Hmiss).
    unfold bind. rewrite (load_config_loaded _ _ _ _ Hread).
    unfold arg_or_config.
    destruct (truthy_opt (arg_token args)), (truthy_opt (arg_org args)); simpl;
      destruct (lookup "api_token" fields), (lookup "org_id" fields); reflexivity.
  - intros args e v e1 Hmiss Hread Hv.
    unfold resolve_credentials. rewrite (needs_config args Hmiss).
    unfold bind. rewrite (load_config_loaded _ _ _ _ Hread).
    unfold arg_or_config.
    destruct v; try (exfalso; eapply Hv; reflexivity);
      destruct Hmiss as [H | H]; rewrite H; simpl;
      destruct (truthy_opt (arg_token args)); reflexivity.
Qed.


(** *** The single operations *)

(** X4. [add_projects_to_collection] never raises.  With an empty batch
    it returns [True] and sends nothing; otherwise it sends one POST to
    the relationships endpoint of the collection, with one reference per
    id in the order of the batch, and returns whether that POST
    succeeded. *)
Theorem add_projects_to_collection_total self cid ids name e :
  exists t,
    add_projects_to_collection self cid ids name e
    = (Return (match ids with
               | [] => true
               | _ :: _ => succeeded (fst (requests_post (VStr (relationships_url self cid))
                                            (headers self) (attach_payload ids) e))
               end),
       match ids with
       | [] => e
       | _ :: _ => snd (requests_post (VStr (relationships_url self cid))
                          (headers self) (attach_payload ids) e)
       end, t) /\
    calls t = match ids with
              | [] => []
              | _ :: _ => [CallPost (VStr (relationships_url self cid)) (headers self)
                             (VDict [("data",
                                      VList (map (fun id => VDict [("id", id);
                                                                   ("type", VStr "project")])
                                                 ids))])]
              end.
Proof.
  destruct ids as [ | id ids].
  - eexists. split; reflexivity.
  - destruct (requests_post (VStr (relationships_url self cid)) (headers self)
                (attach_payload (id :: ids)) e) as [r e1] eqn:Hpost.
    destruct (add_projects_to_collection_post self cid (id :: ids) name e r e1)
      as (t & Ht & Hc); [discriminate | exact Hpost | ].
    exists t. split; [exact Ht | exact Hc].
Qed.

(** X5. [save_project_ids] never raises, whether the write succeeds or
    not.  It makes exactly one write, of one line per id in the order of
    the list, to the path given or, when none (or an empty one) is
    given, to [project_ids_<seconds>.txt]; a failed write is reported by
    a message. *)
Theorem save_project_ids_total self ids output_file e :
  exists t,
    save_project_ids self ids output_file e
    = (Return tt,
       snd (write_lines (fst (save_path output_file e)) (id_lines ids)
              (snd (save_path output_file e))), t) /\
    calls t = [CallWrite (fst (save_path output_file e)) (id_lines ids)] /\
    List.length (id_lines ids) = List.length ids /\
    (forall msg,
        fst (write_lines (fst (save_path output_file e)) (id_lines ids)
               (snd (save_path output_file e))) = Some msg ->
        In (Print (fstring ["Error saving project IDs to file: "; msg])) t).
Proof.
  unfold save_project_ids, save_path.
  destruct (truthy_opt output_file); simpl negb; cbv iota.
  - simpl fst. simpl snd.
    destruct (write_lines (opt_string output_file) (id_lines ids) e) as [r e1] eqn:Hw.
    destruct r as [msg | ]; eexists; (split; [
      eapply bind_return; [reflexivity | ];
      eapply bind_return; [unfold file_write; rewrite Hw; reflexivity | ];
      reflexivity
    | split; [now simpl_calls | split; [apply length_map | ] ] ]).
    + intros msg' H. simpl in H. injection H as <-. simpl. auto.
    + intros msg' H. discriminate.
  - destruct (time_time e) as [z e0] eqn:Htime. simpl fst. simpl snd.
    destruct (write_lines (fstring ["project_ids_"; py_str (VNum z); ".txt"])
                (id_lines ids) e0) as [r e1] eqn:Hw.
    destruct r as [msg | ]; eexists; (split; [
      eapply bind_return; [
        eapply bind_return; [unfold now; rewrite Htime; reflexivity | reflexivity ] | ];
      eapply bind_return; [unfold file_write; rewrite Hw; reflexivity | ];
      reflexivity
    | split; [now simpl_calls | split; [apply length_map | ] ] ]).
    + intros msg' H. simpl in H. injection H as <-. simpl. auto.
    + intros msg' H. discriminate.
Qed.

(** X6. Without projects ([None] or an empty list) [create_collection]
    sends the name-only payload, with no [relationships] key, and has no
    fallback: a failure of that single request ends the process with
    exit code 1, a success returns the group under [data]. *)
Theorem create_collection_without_projects self name project_ids e :
  ids_given project_ids = false ->
  create_payload name project_ids
  = VDict [("data", VDict [("type", VStr "collection");
                           ("attributes", VDict [("name", VStr name)])])] /\
  (forall x e1,
      requests_post (VStr (collections_url self)) (headers self)
        (create_payload name project_ids) e = (HttpError x, e1) ->
      exists t,
        create_collection self name project_ids e = (Raise (SystemExit 1), e1, t) /\
        calls t = [CallPost (VStr (collections_url self)) (headers self)
                     (create_payload name project_ids)]) /\
  (forall fields g e1,
      requests_post (VStr (collections_url self)) (headers self)
        (create_payload name project_ids) e = (HttpOk (VDict fields), e1) ->
      lookup "data" fields = Some (VDict g) ->
      exists t,
        create_collection self name project_ids e = (Return (VDict g), e1, t) /\
        calls t = [CallPost (VStr (collections_url self)) (headers self)
                     (create_payload name project_ids)]).
Proof.
  intros Hgiven.
  assert (Hpayload : create_payload name project_ids = create_payload name None)
    by (unfold create_payload; now rewrite Hgiven).
  split; [ | split].
  - rewrite Hpayload. reflexivity.
  - intros x e1 Hpost. destruct (print_response_returns x e1) as (tr & Hr & Hcr).
    eexists. split.
    + unfold create_collection. simpl create_collection_rec. rewrite Hgiven.
      eapply bind_return; [reflexivity | ].
      eapply try_caught; [unfold http_post; eapply bind_raise; rewrite Hpost; reflexivity | ].
      eapply bind_return; [reflexivity | ].
      eapply bind_return; [exact Hr | ].
      reflexivity.
    + simpl_calls. now rewrite Hcr.
  - intros fields g e1 Hpost Hdata.
    exact (create_collection_rec_ok 1 self name project_ids e fields g e1 Hpost Hdata).
Qed.


Lemma get_projects_records fuel self name_prefix e ps e1 t :
  get_projects_by_name_prefix fuel self name_prefix e = (Return ps, e1, t) ->
  Forall is_record ps.
Proof.
  unfold get_projects_by_name_prefix. intros H.
  apply bind_inv in H as (u & e0 & t0 & t' & _ & H & _).
  apply try_inv in H as [H | (x & e2 & t1 & t2 & _ & H & _)].
  - unfold get_projects_try in H.
    apply bind_inv in H as (ps' & ea & ta & tb & _ & H & _).
    apply bind_inv in H as (u1 & eb & tc & td & _ & H & _).
    apply bind_inv in H as ([] & ec & te & tf & Hp & H & _).
    inversion H; subst. eapply print_entries_records; eassumption.
  - destruct (get_projects_except_returns x e2) as (t3 & Hh & _).
    rewrite Hh in H. inversion H. constructor.
Qed.

Lemma ids_of_all ps : forall ids e,
  map id_attribute ps = map Some ids -> ids_of ps e = (Return ids, e, []).
Proof.
  induction ps as [ | p rest IH]; intros [ | id ids] e H; try discriminate.
  - reflexivity.
  - simpl in H. injection H as Hp Hrest.
    destruct p as [ | | | | | fields]; try discriminate Hp. simpl in Hp.
    simpl ids_of. change (@nil event) with (@nil event ++ [] ++ []).
    eapply bind_return; [simpl; rewrite Hp; reflexivity | ].
    eapply bind_return; [apply IH; exact Hrest | reflexivity].
Qed.

Lemma ids_of_missing ps e :
  Forall is_record ps ->
  Exists (fun p => id_attribute p = None) ps ->
  ids_of ps e = (Raise (KeyError "id"), e, []).
Proof.
  intros Hrec. induction Hrec as [ | p rest Hp _ IH]; intros Hex.
  - inversion Hex.
  - destruct p as [ | | | | | fields]; try contradiction.
    simpl ids_of. unfold bind. simpl py_subscript.
    destruct (lookup "id" fields) as [id | ] eqn:Hid; [ | reflexivity].
    simpl. rewrite IH; [reflexivity | ].
    inversion Hex as [? ? H | ? ? H]; subst; [ | exact H].
    simpl in H. congruence.
Qed.

Lemma print_numbered_returns ids : forall i e,
  exists t, print_numbered i ids e = (Return tt, e, t) /\ calls t = [].
Proof.
  induction ids as [ | id rest IH]; intros i e.
  - now exists [].
  - destruct (IH (i + 1)%Z e) as (t & Ht & Hc). eexists. split.
    + simpl print_numbered. eapply bind_return; [reflexivity | exact Ht].
    + simpl_calls. exact Hc.
Qed.

(** X7. [extract_project_ids] gives the ids of the listed projects, one
    per project and in the order of the listing (repeated projects
    included), without any further call; and a listed project without an
    [id] makes it fail with [KeyError('id')] instead of returning. *)
Theorem extract_project_ids_in_listing_order :
  (forall fuel self name_prefix e ps e1 t1 ids,
      get_projects_by_name_prefix fuel self name_prefix e = (Return ps, e1, t1) ->
      map id_attribute ps = map Some ids ->
      exists t,
        extract_project_ids fuel self name_prefix e = (Return ids, e1, t) /\
        calls t = calls t1 /\
        List.length ids = List.length ps) /\
  (forall fuel self name_prefix e ps e1 t1,
      get_projects_by_name_prefix fuel self name_prefix e = (Return ps, e1, t1) ->
      Exists (fun p => id_attribute p = None) ps ->
      exists t,
        extract_project_ids fuel self name_prefix e = (Raise (KeyError "id"), e1, t)).
Proof.
  split.
  - intros fuel self name_prefix e ps e1 t1 ids Hp Hids.
    destruct (print_numbered_returns ids 1%Z e1) as (tn & Hn & Hcn).
    eexists. split; [ | split].
    + unfold extract_project_ids.
      eapply bind_return; [reflexivity | ].
      eapply bind_return; [exact Hp | ].
      eapply bind_return; [apply ids_of_all; exact Hids | ].
      eapply bind_return; [reflexivity | ].
      eapply bind_return; [exact Hn | reflexivity].
    + simpl_calls. now rewrite Hcn, app_nil_r.
    + apply (f_equal (@List.length _)) in Hids. now rewrite !length_map in Hids.
  - intros fuel self name_prefix e ps e1 t1 Hp Hex.
    eexists. unfold extract_project_ids.
    eapply bind_return; [reflexivity | ].
    eapply bind_return; [exact Hp | ].
    apply bind_raise. apply ids_of_missing; [ | exact Hex].
    eapply get_projects_records; exact Hp.
Qed.


(** *** What a run sends, and what it never does *)

Lemma em_ret {A : Type} P (a : A) : emits P (ret a).
Proof. intros e. constructor. Qed.

Lemma em_raise {A : Type} P x : emits P (@raise _ A x).
Proof. intros e. constructor. Qed.

Lemma em_diverge {A : Type} P : emits P (@diverge _ A).
Proof. intros e. constructor. Qed.

Lemma em_print (P : event -> Prop) line : P (Print line) -> emits P (print line).
Proof. intros H e. now repeat constructor. Qed.

Lemma em_http_get (P : event -> Prop) url hs :
  P (CallGet url hs) -> emits P (http_get url hs).
Proof.
  intros H e. unfold http_get.
  destruct (requests_get url hs e) as [[x | body] e1]; now repeat constructor.
Qed.

Lemma em_http_post (P : event -> Prop) url hs payload :
  P (CallPost url hs payload) -> emits P (http_post url hs payload).
Proof.
  intros H e. unfold http_post.
  destruct (requests_post url hs payload e) as [[x | body] e1]; now repeat constructor.
Qed.

Lemma em_bind {A B : Type} P (m : M A) (k : A -> M B) :
  emits P m -> (forall a, emits P (k a)) -> emits P (bind m k).
Proof.
  intros Hm Hk e. specialize (Hm e). unfold bind.
  destruct (m e) as [[[a | x | ] e1] t1]; simpl in *; try exact Hm.
  specialize (Hk a e1). destruct (k a e1) as [[o e2] t2]. simpl in *.
  apply Forall_app. now split.
Qed.

Lemma em_try {A : Type} P (body : M A) handler :
  emits P body -> (forall x, emits P (handler x)) -> emits P (try_except body handler).
Proof.
  intros Hb Hh e. specialize (Hb e). unfold try_except.
  destruct (body e) as [[[a | x | ] e1] t1]; simpl in *; try exact Hb.
  destruct x as [x | | | | | ]; try exact Hb.
  specialize (Hh x e1). destruct (handler x e1) as [[o e2] t2]. simpl in *.
  apply Forall_app. now split.
Qed.

Lemma em_py_get P v key default : emits P (py_get v key default).
Proof.
  destruct v; simpl; try apply em_raise. destruct (lookup key fields); apply em_ret.
Qed.

Lemma em_py_subscript P v key : emits P (py_subscript v key).
Proof.
  destruct v; simpl; try apply em_raise.
  destruct (lookup key fields); [apply em_ret | apply em_raise].
Qed.

Lemma em_py_extend P acc v : emits P (py_extend acc v).
Proof. unfold py_extend. destruct (py_iter v); [apply em_ret | apply em_raise]. Qed.

Lemma em_py_len P v : emits P (py_len v).
Proof. unfold py_len. destruct (py_iter v); [apply em_ret | apply em_raise]. Qed.

(** Goes through a piece of script; the events met must satisfy the
    predicate by computation. *)
Ltac em_with known :=
  repeat first
    [ known
    | apply em_ret | apply em_raise | apply em_diverge
    | apply em_print; solve [auto]
    | apply em_http_get; solve [auto]
    | apply em_http_post; solve [auto]
    | apply em_py_get | apply em_py_subscript | apply em_py_extend | apply em_py_len
    | assumption
    | apply em_bind; [ | intros ? ]
    | apply em_try; [ | intros ? ]
    | match goal with
      | |- emits _ (if ?c then _ else _) => destruct c
      | |- emits _ (match ?x with _ => _ end) => destruct x
      | |- emits _ (sys_exit _) => apply em_raise
      end ].

Ltac em := em_with fail.

(** Listing, matching and extracting, for any predicate that holds of
    the prints and of the GET requests sent with the manager's headers. *)
Section Reading.

Variable P : event -> Prop.
Variable self : SnykCollectionsManager.
Hypothesis P_print : forall line, P (Print line).
Hypothesis P_get : forall url, P (CallGet url (headers self)).

Lemma em_fetch_pages noun fuel :
  forall url acc, emits P (fetch_pages noun fuel self url acc).
Proof. induction fuel as [ | fuel IH]; intros url acc; simpl; em. apply IH. Qed.

Lemma em_print_entries entries : emits P (print_entries entries).
Proof. induction entries as [ | c rest IH]; simpl; em. Qed.

Lemma em_find_in_collections cs name : emits P (find_in_collections cs name).
Proof. induction cs as [ | c rest IH]; simpl; em. Qed.

Lemma em_ids_of projects : emits P (ids_of projects).
Proof. induction projects as [ | p rest IH]; simpl; em. Qed.

Lemma em_print_numbered ids : forall i, emits P (print_numbered i ids).
Proof. induction ids as [ | id rest IH]; intros i; simpl; em. apply IH. Qed.

Ltac em_loops :=
  em; auto using em_fetch_pages, em_print_entries, em_find_in_collections, em_ids_of,
                 em_print_numbered.

Lemma em_get_projects fuel name_prefix :
  emits P (get_projects_by_name_prefix fuel self name_prefix).
Proof. unfold get_projects_by_name_prefix. em_loops. Qed.

Lemma em_get_collections fuel : emits P (get_collections fuel self).
Proof. unfold get_collections. em_loops. Qed.

Lemma em_find_collection fuel name : emits P (find_collection_by_name fuel self name).
Proof. unfold find_collection_by_name. em_loops. Qed.

Lemma em_extract fuel name_prefix : emits P (extract_project_ids fuel self name_prefix).
Proof. unfold extract_project_ids. em_loops. Qed.

(** Creating and attaching, when the predicate also holds of the POST
    requests sent with the manager's headers. *)
Hypothesis P_post : forall url payload, P (CallPost url (headers self) payload).

Lemma em_create_rec depth name :
  forall project_ids, emits P (create_collection_rec depth self name project_ids).
Proof. induction depth as [ | depth IH]; intros project_ids; simpl; em; apply IH. Qed.

Lemma em_add_projects cid ids name :
  emits P (add_projects_to_collection self cid ids name).
Proof. unfold add_projects_to_collection. em. Qed.

(** The whole run, when the predicate holds of the writes to the output
    path as well. *)
Variable output_file : option string.
Hypothesis P_write : forall lines, P (CallWrite (opt_string output_file) lines).

Lemma em_save ids :
  truthy_opt output_file = true -> emits P (save_project_ids self ids output_file).
Proof.
  intros Hout e. unfold save_project_ids. rewrite Hout. simpl negb. cbv iota.
  unfold bind, ret, file_write, print.
  destruct (write_lines (opt_string output_file) (id_lines ids) e) as [r e1].
  destruct r; simpl; repeat constructor; auto.
Qed.

Lemma em_process fuel prefix name :
  emits P (process_projects_and_collection fuel self prefix name output_file).
Proof.
  unfold process_projects_and_collection, when.
  em_with ltac:(first
    [ apply em_extract | apply em_get_collections | apply em_find_collection
    | apply em_create_rec | apply em_add_projects
    | match goal with
      | |- emits _ (if truthy_opt output_file then _ else _) =>
          destruct (truthy_opt output_file) eqn:?; [apply em_save; assumption | apply em_ret]
      end ]).
Qed.

End Reading.


Lemma print_or_get_no_post hs t :
  Forall (print_or_get hs) t -> filter is_post (calls t) = [] /\ writes t = [].
Proof.
  induction 1 as [ | ev t Hev _ [IH1 IH2]]; [now split | ].
  destruct ev; try contradiction; unfold calls, writes in *; simpl; auto.
Qed.

(** X8. Listing, looking a name up and extracting ids only read: all
    that [get_projects_by_name_prefix], [get_collections],
    [find_collection_by_name] and [extract_project_ids] do, whatever the
    remote answers, is print and send GET requests with the manager's
    headers; they send no POST and write no file. *)
Theorem listings_only_read fuel self name_prefix collection_name :
  emits (print_or_get (headers self)) (get_projects_by_name_prefix fuel self name_prefix) /\
  emits (print_or_get (headers self)) (get_collections fuel self) /\
  emits (print_or_get (headers self)) (find_collection_by_name fuel self collection_name) /\
  emits (print_or_get (headers self)) (extract_project_ids fuel self name_prefix) /\
  (forall e,
      filter is_post
        (calls (snd (find_collection_by_name fuel self collection_name e))) = [] /\
      filter is_post (calls (snd (extract_project_ids fuel self name_prefix e))) = []).
Proof.
  assert (Hp : forall line, print_or_get (headers self) (Print line)) by (intros; exact I).
  assert (Hg : forall url, print_or_get (headers self) (CallGet url (headers self)))
    by (intros; reflexivity).
  split; [ | split; [ | split; [ | split]]].
  - now apply em_get_projects.
  - now apply em_get_collections.
  - now apply em_find_collection.
  - now apply em_extract.
  - intros e. split.
    + eapply print_or_get_no_post. now apply em_find_collection.
    + eapply print_or_get_no_post. now apply em_extract.
Qed.

(** X9. Whatever the remote answers and however it ends, a run of
    [process_projects_and_collection] sends every request, GET or POST,
    with the manager's headers, writes no file other than the output
    path it was given, and never reads the configuration file. *)
Theorem run_events_are_bounded fuel self prefix name output_file :
  emits (run_event (headers self) (opt_string output_file))
    (process_projects_and_collection fuel self prefix name output_file).
Proof.
  apply em_process; intros; try exact I; reflexivity.
Qed.

Lemma matched_no_post fuel self prefix name e ids found e3 ct :
  matched fuel self prefix name e ids found e3 ct -> filter is_post ct = [].
Proof.
  intros (e1 & t1 & cs & e2 & t2 & t3 & Hx & _ & Hc & _ & Hf & ->).
  assert (Hp : forall line, print_or_get (headers self) (Print line)) by (intros; exact I).
  assert (Hg : forall url, print_or_get (headers self) (CallGet url (headers self)))
    by (intros; reflexivity).
  pose proof (em_extract _ self Hp Hg fuel prefix e) as H1. rewrite Hx in H1.
  pose proof (em_get_collections _ self Hp Hg fuel e1) as H2. rewrite Hc in H2.
  pose proof (em_find_collection _ self Hp Hg fuel name e2) as H3. rewrite Hf in H3.
  simpl in H1, H2, H3.
  apply print_or_get_no_post in H1 as [H1 _].
  apply print_or_get_no_post in H2 as [H2 _].
  apply print_or_get_no_post in H3 as [H3 _].
  now rewrite !filter_app, H1, H2, H3.
Qed.

(** X10. When the lookup finds a collection under the name (and it has
    an id), the run creates nothing: the only POST it sends is the
    attach of the batch to that collection, and it returns the batch.
    The POST is written out: it goes to
    [.../collections/<id>/relationships/projects] of the collection
    found and carries one reference per id of the batch, in the order of
    the batch. *)
Theorem existing_collection_is_reused
    fuel self prefix name output_file e ids found e3 ct cid :
  matched fuel self prefix name e ids found e3 ct ->
  has_id found cid ->
  exists b e5 t,
    process_projects_and_collection fuel self prefix name output_file e
    = (Return ids, fst (saved ids output_file b e5), t) /\
    calls t = ct ++
              [CallPost
                 (VStr (fstring [base_url self; "/orgs/"; py_str (org_id self); "/collections/";
                                 py_str cid; "/relationships/projects?version="; api_version self]))
                 (headers self)
                 (VDict [("data",
                     VList (map
                        (fun id => VDict [("id", id); ("type", VStr "project")]) ids))])] ++
              snd (saved ids output_file b e5) /\
    filter is_post (calls t)
    = [CallPost
         (VStr (fstring [base_url self; "/orgs/"; py_str (org_id self); "/collections/";
                         py_str cid; "/relationships/projects?version="; api_version self]))
         (headers self)
         (VDict [("data",
             VList (map
                (fun id => VDict [("id", id); ("type", VStr "project")]) ids))])].
Proof.
  intros Hm Hid.
  assert (Hids : ids <> []) by (destruct Hm as (? & ? & ? & ? & ? & ? & _ & H & _); exact H).
  assert (Hfound : truthy found = true).
  { destruct Hid as (fields & -> & Hl). destruct fields; [discriminate | reflexivity]. }
  assert (Hsettle : settle self name ids found e3 = (Return found, e3, []))
    by (unfold settle; now rewrite Hfound).
  destruct (add_projects_to_collection_returns self cid ids name e3 Hids)
    as (b & e5 & t5 & Hadd & Hc5).
  destruct (process_attach fuel self prefix name output_file _ _ _ _ _ _ _ _ cid _ _ _
              Hm Hsettle Hid Hadd) as (t & Hrun & Hc).
  exists b, e5, t. split; [exact Hrun | ].
  rewrite Hc, Hc5. simpl_calls. split; [reflexivity | ].
  rewrite !filter_app, (matched_no_post _ _ _ _ _ _ _ _ _ Hm).
  unfold saved. now destruct (b && truthy_opt output_file).
Qed.

(** *** Failures the run does not tell apart *)

(** X11. Any failure of the first listing of collections, not only a
    404 (a transport failure, a 401, a 403, a 500), is taken for
    "collections are not available": the run prints that message,
    returns the extracted ids without any POST, and the process exits
    with code 0. *)
Theorem any_listing_failure_is_degraded_success
    fuel args e token org e0 t0 ids e1 t1 x e2 t2 :
  resolve_credentials args e = (Return (token, org), e0, t0) ->
  truthy token = true -> truthy org = true -> arg_dry_run args = false ->
  extract_project_ids fuel (init token org) (arg_prefix args) e0 = (Return ids, e1, t1) ->
  ids <> [] ->
  get_collections_try fuel (init token org) e1 = (Raise (RequestException x), e2, t2) ->
  (exists t,
      process_projects_and_collection fuel (init token org) (arg_prefix args)
        (arg_collection args) (arg_output args) e0 = (Return ids, e2, t) /\
      In (Print "❌ Collections are not available for this organization.") t /\
      filter is_post (calls t) = []) /\
  exit_code (outcome_of (main fuel args e)) = Some 0%Z.
Proof.
  intros Hcred Htoken Horg Hdry Hx Hids Hb.
  destruct (get_collections_caught _ _ _ _ _ _ Hb) as (tc & Hc & _ & _).
  destruct (process_unavailable fuel (init token org) (arg_prefix args) (arg_collection args)
              (arg_output args) _ _ _ _ _ _ Hx Hids Hc) as (t & Hrun & Hcalls & Hin & _).
  split.
  - exists t. split; [exact Hrun | split; [exact Hin | ]].
    assert (Hp : forall line, print_or_get (headers (init token org)) (Print line))
      by (intros; exact I).
    assert (Hg : forall url, print_or_get (headers (init token org))
                               (CallGet url (headers (init token org))))
      by (intros; reflexivity).
    pose proof (em_extract _ _ Hp Hg fuel (arg_prefix args) e0) as H1. rewrite Hx in H1.
    pose proof (em_get_collections _ _ Hp Hg fuel e1) as H2. rewrite Hc in H2.
    apply print_or_get_no_post in H1 as [H1 _].
    apply print_or_get_no_post in H2 as [H2 _].
    simpl in H1, H2. now rewrite Hcalls, filter_app, H1, H2.
  - destruct (main_runs_process _ _ _ _ _ _ _ _ _ _ Hcred Htoken Horg Hdry Hrun)
      as (tm & Hmain & _).
    rewrite Hmain. apply truthy_list_nonempty in Hids. now rewrite Hids.
Qed.

(** When its listing fails, [find_collection_by_name] finds nothing. *)
Lemma find_collection_by_name_on_failure fuel self name e x e1 t1 :
  get_collections_try fuel self e = (Raise (RequestException x), e1, t1) ->
  exists t,
    find_collection_by_name fuel self name e = (Return VNone, e1, t) /\
    calls t = calls t1.
Proof.
  intros Hb. destruct (get_collections_caught _ _ _ _ _ _ Hb) as (tc & Hc & _ & Hcalls).
  eexists. split.
  - unfold find_collection_by_name. eapply bind_return; [exact Hc | reflexivity].
  - simpl_calls. exact Hcalls.
Qed.

(** X12. The lookup lists the collections a second time, and a failure
    of that second listing is taken for "no collection under that name":
    the run goes on to create the collection, whatever the first listing
    showed (so also when it showed one under that very name), and then
    attaches the batch to the new one.  The two POSTs are written out:
    the creation carries the name and, under [relationships], one
    reference per id of the batch; the attach goes to the relationships
    endpoint of the new collection with one reference per id. *)
Theorem failed_lookup_leads_to_creation
    fuel self prefix name output_file e ids e1 t1 cs e2 t2 x e3 t3 fields g cid e4 :
  extract_project_ids fuel self prefix e = (Return ids, e1, t1) ->
  ids <> [] ->
  get_collections fuel self e1 = (Return cs, e2, t2) ->
  cs <> [] ->
  get_collections_try fuel self e2 = (Raise (RequestException x), e3, t3) ->
  requests_post
    (VStr (fstring [base_url self; "/orgs/"; py_str (org_id self);
                    "/collections?version="; api_version self]))
    (headers self)
    (VDict [("data",
             VDict [("type", VStr "collection");
                    ("attributes", VDict [("name", VStr name)]);
                    ("relationships",
                     VDict [("projects", VDict [("data",
                         VList (map
                            (fun id => VDict [("id", id); ("type", VStr "project")]) ids))])])])]) e3 = (HttpOk (VDict fields), e4) ->
  lookup "data" fields = Some (VDict g) ->
  lookup "id" g = Some cid ->
  exists b e5 t,
    process_projects_and_collection fuel self prefix name output_file e
    = (Return ids, fst (saved ids output_file b e5), t) /\
    calls t = calls t1 ++ calls t2 ++ calls t3 ++
              [CallPost
                 (VStr (fstring [base_url self; "/orgs/"; py_str (org_id self);
                                 "/collections?version="; api_version self]))
                 (headers self)
                 (VDict [("data",
                          VDict [("type", VStr "collection");
                                 ("attributes", VDict [("name", VStr name)]);
                                 ("relationships",
                                  VDict [("projects", VDict [("data",
                                      VList (map
                                         (fun id => VDict [("id", id); ("type", VStr "project")]) ids))])])])]);
               CallPost
                 (VStr (fstring [base_url self; "/orgs/"; py_str (org_id self); "/collections/";
                                 py_str cid; "/relationships/projects?version="; api_version self]))
                 (headers self)
                 (VDict [("data",
                     VList (map
                        (fun id => VDict [("id", id); ("type", VStr "project")]) ids))])] ++
              snd (saved ids output_file b e5).
Proof.
  intros Hx Hids Hc Hcs Hb Hpost Hdata Hid.
  rewrite <- (create_payload_inline name ids Hids) in Hpost |- *.
  destruct (find_collection_by_name_on_failure fuel self name _ _ _ _ Hb)
    as (tf & Hf & Hcf).
  assert (Hm : matched fuel self prefix name e ids VNone e3
                 (calls t1 ++ calls t2 ++ calls tf)).
  { exists e1, t1, cs, e2, t2, tf. now repeat split. }
  destruct (create_collection_rec_ok 1 self name (Some ids) e3 fields g e4 Hpost Hdata)
    as (t4 & Hcreate & Hc4).
  destruct (add_projects_to_collection_returns self cid ids name e4 Hids)
    as (b & e5 & t5 & Hadd & Hc5).
  assert (Hsettle : settle self name ids VNone e3 = (Return (VDict g), e4, t4))
    by exact Hcreate.
  destruct (process_attach fuel self prefix name output_file _ _ _ _ _ _ _ _ cid _ _ _
              Hm Hsettle (ex_intro _ g (conj eq_refl Hid)) Hadd) as (t & Hrun & Hcalls).
  exists b, e5, t. split; [exact Hrun | ].
  rewrite Hcalls, Hc4, Hc5, Hcf. now rewrite <- !app_assoc.
Qed.

(** X13. A failed attach does not change the exit code: when the batch
    is not empty and the attach POST fails, the run still returns the
    batch, writes no file, and the process exits with code 0. *)
Theorem failed_attach_still_exits_0
    fuel args e token org e0 t0 ids found e3 ct g e4 t4 cid x e5 :
  resolve_credentials args e = (Return (token, org), e0, t0) ->
  truthy token = true -> truthy org = true -> arg_dry_run args = false ->
  matched fuel (init token org) (arg_prefix args) (arg_collection args) e0
    ids found e3 ct ->
  settle (init token org) (arg_collection args) ids found e3 = (Return g, e4, t4) ->
  has_id g cid ->
  requests_post (VStr (relationships_url (init token org) cid)) (headers (init token org))
    (attach_payload ids) e4 = (HttpError x, e5) ->
  (exists t,
      process_projects_and_collection fuel (init token org) (arg_prefix args)
        (arg_collection args) (arg_output args) e0 = (Return ids, e5, t) /\
      writes t = []) /\
  exit_code (outcome_of (main fuel args e)) = Some 0%Z.
Proof.
  intros Hcred Htoken Horg Hdry Hm Hsettle Hid Hpost.
  assert (Hids : ids <> []) by (destruct Hm as (? & ? & ? & ? & ? & ? & _ & H & _); exact H).
  destruct (add_projects_to_collection_post _ cid ids (arg_collection args) e4 _ e5
              Hids Hpost) as (t5 & Hadd & _).
  simpl succeeded in Hadd.
  destruct (process_attach fuel _ _ _ (arg_output args) _ _ _ _ _ _ _ _ cid _ _ _
              Hm Hsettle Hid Hadd) as (t & Hrun & Hcalls).
  change (fst (saved ids (arg_output args) false e5)) with e5 in Hrun.
  split.
  - exists t. split; [exact Hrun | ].
    pose proof (matched_writes _ _ _ _ _ _ _ _ _ Hm) as H1.
    pose proof (wn_settle (init token org) (arg_collection args) ids found e3) as H2.
    rewrite Hsettle in H2.
    pose proof (wn_add_projects (init token org) cid ids (arg_collection args) e4) as H3.
    rewrite Hadd in H3. simpl in H2, H3.
    rewrite <- writes_calls, Hcalls, !writes_app, !writes_calls, H1, H2, H3.
    reflexivity.
  - destruct (main_runs_process _ _ _ _ _ _ _ _ _ _ Hcred Htoken Horg Hdry Hrun)
      as (tm & Hmain & _).
    rewrite Hmain. apply truthy_list_nonempty in Hids. now rewrite Hids.
Qed.


(** *** More on the listings *)

Lemma append_nonempty a c s : String.eqb (a ++ String c s) EmptyString = false.
Proof. destruct a; reflexivity. Qed.

(** The URLs the manager builds are never empty. *)
Lemma projects_url_truthy self name_prefix :
  truthy (VStr (projects_url self name_prefix)) = true.
Proof.
  unfold projects_url, fstring. simpl String.concat. simpl truthy.
  now rewrite append_nonempty.
Qed.

Lemma collections_url_truthy self : truthy (VStr (collections_url self)) = true.
Proof.
  unfold collections_url, fstring. simpl String.concat. simpl truthy.
  now rewrite append_nonempty.
Qed.

(** A first page whose body is not as expected. *)
Lemma fetch_pages_not_object noun fuel self url acc e body e1 :
  truthy url = true ->
  requests_get url (headers self) e = (HttpOk body, e1) ->
  (forall fields, body <> VDict fields) ->
  exists t, fetch_pages noun (S fuel) self url acc e = (Raise AttributeError, e1, t).
Proof.
  intros Hurl Hget Hbody. eexists. simpl fetch_pages. rewrite Hurl.
  eapply bind_return; [reflexivity | ].
  eapply bind_return; [unfold http_get; rewrite Hget; reflexivity | ].
  apply bind_raise.
  destruct body; try reflexivity. exfalso. eapply Hbody. reflexivity.
Qed.

Lemma fetch_pages_not_iterable noun fuel self url acc e fields v e1 :
  truthy url = true ->
  requests_get url (headers self) e = (HttpOk (VDict fields), e1) ->
  lookup "data" fields = Some v ->
  py_iter v = None ->
  exists t, fetch_pages noun (S fuel) self url acc e = (Raise TypeError, e1, t).
Proof.
  intros Hurl Hget Hdata Hiter. eexists. simpl fetch_pages. rewrite Hurl.
  eapply bind_return; [reflexivity | ].
  eapply bind_return; [unfold http_get; rewrite Hget; reflexivity | ].
  eapply bind_return; [simpl; rewrite Hdata; reflexivity | ].
  apply bind_raise. unfold py_extend. now rewrite Hiter.
Qed.

(** A fault other than a [RequestException] goes through both
    listings. *)
Lemma get_projects_fault fuel self name_prefix e x e1 t1 :
  fetch_pages "projects" fuel self (VStr (projects_url self name_prefix)) [] e
  = (Raise x, e1, t1) ->
  (forall r, x <> RequestException r) ->
  exists t, get_projects_by_name_prefix fuel self name_prefix e = (Raise x, e1, t).
Proof.
  intros Hf Hx. eexists. unfold get_projects_by_name_prefix.
  eapply bind_return; [reflexivity | ].
  unfold try_except, get_projects_try. rewrite (bind_raise _ _ _ _ _ _ Hf).
  destruct x; try reflexivity. exfalso. eapply Hx. reflexivity.
Qed.

Lemma get_collections_fault fuel self e x e1 t1 :
  fetch_pages "collections" fuel self (VStr (collections_url self)) [] e
  = (Raise x, e1, t1) ->
  (forall r, x <> RequestException r) ->
  exists t, get_collections fuel self e = (Raise x, e1, t).
Proof.
  intros Hf Hx. eexists. unfold get_collections.
  eapply bind_return; [reflexivity | ].
  unfold try_except, get_collections_try. rewrite (bind_raise _ _ _ _ _ _ Hf).
  destruct x; try reflexivity. exfalso. eapply Hx. reflexivity.
Qed.

(** X14. Only request failures are degraded to an empty list.  A
    response that is delivered but is not what the listing expects is a
    fault that leaves the function: a body that is not an object raises
    [AttributeError], a [data] that cannot be iterated (for instance
    [null]) raises [TypeError]; for the listing of projects the process
    then ends with exit code 1. *)
Theorem unexpected_listing_body_is_not_degraded :
  (forall fuel self name_prefix e body e1,
      requests_get (VStr (projects_url self name_prefix)) (headers self) e
      = (HttpOk body, e1) ->
      (forall fields, body <> VDict fields) ->
      exists t,
        get_projects_by_name_prefix (S fuel) self name_prefix e
        = (Raise AttributeError, e1, t)) /\
  (forall fuel self e body e1,
      requests_get (VStr (collections_url self)) (headers self) e = (HttpOk body, e1) ->
      (forall fields, body <> VDict fields) ->
      exists t, get_collections (S fuel) self e = (Raise AttributeError, e1, t)) /\
  (forall fuel self name_prefix e fields v e1,
      requests_get (VStr (projects_url self name_prefix)) (headers self) e
      = (HttpOk (VDict fields), e1) ->
      lookup "data" fields = Some v ->
      py_iter v = None ->
      exists t,
        get_projects_by_name_prefix (S fuel) self name_prefix e = (Raise TypeError, e1, t)) /\
  (forall fuel args e token org e0 t0 body e1,
      resolve_credentials args e = (Return (token, org), e0, t0) ->
      truthy token = true -> truthy org = true -> arg_dry_run args = false ->
      requests_get (VStr (projects_url (init token org) (arg_prefix args)))
        (headers (init token org)) e0 = (HttpOk body, e1) ->
      (forall fields, body <> VDict fields) ->
      exit_code (outcome_of (main (S fuel) args e)) = Some 1%Z).
Proof.
  assert (Hprojects : forall fuel self name_prefix e body e1,
      requests_get (VStr (projects_url self name_prefix)) (headers self) e
      = (HttpOk body, e1) ->
      (forall fields, body <> VDict fields) ->
      exists t,
        get_projects_by_name_prefix (S fuel) self name_prefix e
        = (Raise AttributeError, e1, t)).
  { intros fuel self name_prefix e body e1 Hget Hbody.
    destruct (fetch_pages_not_object "projects" fuel self _ [] e body e1
                (projects_url_truthy self name_prefix) Hget Hbody) as (t1 & Hf).
    eapply get_projects_fault; [exact Hf | discriminate]. }
  split; [exact Hprojects | split; [ | split]].
  - intros fuel self e body e1 Hget Hbody.
    destruct (fetch_pages_not_object "collections" fuel self _ [] e body e1
                (collections_url_truthy self) Hget Hbody) as (t1 & Hf).
    eapply get_collections_fault; [exact Hf | discriminate].
  - intros fuel self name_prefix e fields v e1 Hget Hdata Hiter.
    destruct (fetch_pages_not_iterable "projects" fuel self _ [] e fields v e1
                (projects_url_truthy self name_prefix) Hget Hdata Hiter) as (t1 & Hf).
    eapply get_projects_fault; [exact Hf | discriminate].
  - intros fuel args e token org e0 t0 body e1 Hcred Htoken Horg Hdry Hget Hbody.
    destruct (Hprojects fuel _ _ _ _ _ Hget Hbody) as (tp & Hp).
    assert (Hrun : exists t,
               process_projects_and_collection (S fuel) (init token org) (arg_prefix args)
                 (arg_collection args) (arg_output args) e0
               = (Raise AttributeError, e1, t)).
    { eexists. unfold process_projects_and_collection.
      do 5 (eapply bind_return; [reflexivity | ]).
      apply bind_raise. unfold extract_project_ids.
      eapply bind_return; [reflexivity | ].
      apply bind_raise. exact Hp. }
    destruct Hrun as (t & Hrun).
    destruct (main_runs_process _ _ _ _ _ _ _ _ _ _ Hcred Htoken Horg Hdry Hrun)
      as (tm & Hmain & _).
    rewrite Hmain. reflexivity.
Qed.

(** Against a remote that always links to a further page the loop never
    ends. *)
Lemma fetch_pages_never_ends noun self :
  always_more (headers self) ->
  forall fuel url acc e,
    truthy url = true ->
    exists e1 t, fetch_pages noun fuel self url acc e = (Diverge, e1, t).
Proof.
  intros Hmore. induction fuel as [ | fuel IH]; intros url acc e Hurl.
  - exists e, []. simpl. now rewrite Hurl.
  - destruct (Hmore url e) as (body & e1 & entries & next & Hget & Hpage).
    assert (Hnext : truthy next = true)
      by (destruct Hpage as (? & _ & _ & ? & _ & _ & H); exact H).
    destruct (IH next (acc ++ entries) e1 Hnext) as (e2 & t2 & Hrest).
    destruct (fetch_pages_next noun fuel self url acc e body e1 entries next _ _ _
                Hurl Hget Hpage Hrest) as (t & Ht & _).
    now exists e2, t.
Qed.

(** X15. The listings have no bound on the number of pages and no check
    for a link that comes back: against a remote that answers every
    request with a page linking to a further one, neither listing ends,
    however many pages are allowed, and neither does the run. *)
Theorem endless_pagination_never_returns fuel self name_prefix collection_name output_file e :
  always_more (headers self) ->
  outcome_of (get_projects_by_name_prefix fuel self name_prefix e) = Diverge /\
  outcome_of (get_collections fuel self e) = Diverge /\
  outcome_of (process_projects_and_collection fuel self name_prefix collection_name
                output_file e) = Diverge.
Proof.
  intros Hmore.
  destruct (fetch_pages_never_ends "projects" self Hmore fuel _ [] e
              (projects_url_truthy self name_prefix)) as (e1 & t1 & Hp).
  destruct (fetch_pages_never_ends "collections" self Hmore fuel _ [] e
              (collections_url_truthy self)) as (e2 & t2 & Hc).
  assert (Hprojects : get_projects_by_name_prefix fuel self name_prefix e
                      = (Diverge, e1, [Print (fstring ["Retrieving projects with name prefix: '";
                                                       name_prefix; "'"])] ++ t1)).
  { unfold get_projects_by_name_prefix.
    eapply bind_return; [reflexivity | ].
    unfold try_except, get_projects_try. now rewrite (bind_diverge _ _ _ _ _ Hp). }
  assert (Hcollections : exists t, get_collections fuel self e = (Diverge, e2, t)).
  { eexists. unfold get_collections.
    eapply bind_return; [reflexivity | ].
    unfold try_except, get_collections_try. now rewrite (bind_diverge _ _ _ _ _ Hc). }
  assert (Hrun : exists t,
             process_projects_and_collection fuel self name_prefix collection_name
               output_file e = (Diverge, e1, t)).
  { eexists. unfold process_projects_and_collection.
    do 5 (eapply bind_return; [reflexivity | ]).
    apply bind_diverge. unfold extract_project_ids.
    eapply bind_return; [reflexivity | ].
    apply bind_diverge. exact Hprojects. }
  destruct Hcollections as (tc & Hcollections). destruct Hrun as (tr & Hrun).
  now rewrite Hprojects, Hcollections, Hrun.
Qed.


Lemma fetch_pages_serves_at noun self urls :
  forall pages fuel acc e e',
    serves_at (headers self) urls pages e e' ->
    List.length urls <= fuel ->
    exists t,
      fetch_pages noun fuel self
        (match urls with url :: _ => url | [] => VNone end) acc e
      = (Return (acc ++ concat pages), e', t) /\
      calls t = map (fun url => CallGet url (headers self)) urls.
Proof.
  induction urls as [ | url urls' IH]; intros pages fuel acc e e' Hs Hfuel.
  - destruct Hs.
  - destruct pages as [ | entries pages']; [destruct Hs | ].
    destruct fuel as [ | fuel]; [simpl in Hfuel; lia | ].
    destruct Hs as (Hurl & body & e1 & Hget & Hrest).
    destruct urls' as [ | next urls''].
    + destruct Hrest as (-> & Hpage & ->).
      destruct (fetch_pages_last noun fuel self url acc e body e' entries Hurl Hget Hpage)
        as (t & Ht & Hc).
      exists t. simpl concat. rewrite app_nil_r. split; [exact Ht | exact Hc].
    + destruct Hrest as (Hpage & Hserves).
      destruct (IH pages' fuel (acc ++ entries) e1 e' Hserves) as (t2 & Ht2 & Hc2).
      { simpl in Hfuel |- *. lia. }
      destruct (fetch_pages_next noun fuel self url acc e body e1 entries next _ _ _
                  Hurl Hget Hpage Ht2) as (t & Ht & Hc).
      exists t. split.
      * rewrite Ht. simpl concat. now rewrite <- app_assoc.
      * rewrite Hc, Hc2. reflexivity.
Qed.

(** X16. The requests of a listing are exactly these, in this order: the
    URL the manager builds (for projects, with the prefix as
    [names_start_with]), then the [links.next] of each page as the
    remote gave it, with nothing added or changed; all with the
    manager's headers. *)
Theorem listing_follows_next_links_verbatim :
  (forall fuel self name_prefix nexts pages e e',
      serves_at (headers self) (VStr (projects_url self name_prefix) :: nexts) pages e e' ->
      S (List.length nexts) <= fuel ->
      Forall is_record (concat pages) ->
      exists t,
        get_projects_by_name_prefix fuel self name_prefix e = (Return (concat pages), e', t) /\
        calls t = CallGet (VStr (projects_url self name_prefix)) (headers self)
                  :: map (fun url => CallGet url (headers self)) nexts) /\
  (forall fuel self nexts pages e e',
      serves_at (headers self) (VStr (collections_url self) :: nexts) pages e e' ->
      S (List.length nexts) <= fuel ->
      Forall is_record (concat pages) ->
      exists t,
        get_collections fuel self e = (Return (concat pages), e', t) /\
        calls t = CallGet (VStr (collections_url self)) (headers self)
                  :: map (fun url => CallGet url (headers self)) nexts).
Proof.
  split.
  - intros fuel self name_prefix nexts pages e e' Hs Hfuel Hrec.
    destruct (fetch_pages_serves_at "projects" self _ pages fuel [] e e' Hs Hfuel)
      as (t1 & Hf & Hc1).
    destruct (print_entries_returns (concat pages) e' Hrec) as (t2 & Hp & Hc2).
    eexists. split.
    + unfold get_projects_by_name_prefix.
      eapply bind_return; [reflexivity | ].
      apply try_return. unfold get_projects_try.
      eapply bind_return; [exact Hf | ].
      eapply bind_return; [reflexivity | ].
      eapply bind_return; [exact Hp | ].
      reflexivity.
    + simpl_calls. rewrite Hc1, Hc2, app_nil_r. reflexivity.
  - intros fuel self nexts pages e e' Hs Hfuel Hrec.
    destruct (fetch_pages_serves_at "collections" self _ pages fuel [] e e' Hs Hfuel)
      as (t1 & Hf & Hc1).
    destruct (print_entries_returns (concat pages) e' Hrec) as (t2 & Hp & Hc2).
    eexists. split.
    + unfold get_collections.
      eapply bind_return; [reflexivity | ].
      apply try_return. unfold get_collections_try.
      eapply bind_return; [exact Hf | ].
      eapply bind_return; [reflexivity | ].
      eapply bind_return; [exact Hp | ].
      reflexivity.
    + simpl_calls. rewrite Hc1, Hc2, app_nil_r. reflexivity.
Qed.

End Properties.

(** ** The claims on examples *)

(** Solves the equation of a run of the script on an example. *)
Ltac run := vm_compute; reflexivity.

(** Solves [matched] on an example. *)
Ltac run_matched :=
  unfold matched; do 6 eexists;
  repeat match goal with
         | |- _ /\ _ => split
         | |- _ <> _ => discriminate
         | |- _ = _ => run
         end.

Lemma paginated_listing_in_page_order_witness :
  exists t,
    get_projects_by_name_prefix (outside := scripted) 3 example_manager "svc-" three_pages
    = (Return (concat [page_1; page_2; page_3]), [], t) /\
    List.length (calls t) = 3.
Proof.
  apply (proj1 (paginated_listing_in_page_order (outside := scripted))).
  - simpl. split; [reflexivity | ]. do 2 eexists. split; [reflexivity | ].
    eexists. split.
    { eexists. split; [reflexivity | ]. split; [reflexivity | ].
      eexists. split; [reflexivity | ]. split; reflexivity. }
    split; [reflexivity | ]. do 2 eexists. split; [reflexivity | ].
    eexists. split.
    { eexists. split; [reflexivity | ]. split; [reflexivity | ].
      eexists. split; [reflexivity | ]. split; reflexivity. }
    split; [reflexivity | ]. do 2 eexists. split; [reflexivity | ].
    split; [ | reflexivity].
    eexists. split; [reflexivity | ]. split; [reflexivity | ].
    right. eexists. split; [reflexivity | ]. now left.
  - simpl. lia.
  - repeat constructor.
Defined.

(** C1, on the code.  With two projects extracted and a listing of
    collections that succeeds with no entry, the run prints "Found 0
    existing collections", then that collections are not available, and
    returns the ids after its two GET requests: no creation request is
    sent. *)
Theorem empty_collections_listing_stops_the_run :
  let r := process_projects_and_collection (outside := scripted) 2 example_manager
             "svc-" "Services" None [two_projects; HttpOk (page [] None)] in
  outcome_of r = Return [VStr "p1"; VStr "p2"] /\
  In (Print "Found 0 existing collections") (snd r) /\
  In (Print "❌ Collections are not available for this organization.") (snd r) /\
  calls (snd r) = [list_projects; list_collections] /\
  filter is_post (snd r) = [].
Proof.
  vm_compute. repeat split; auto 30.
Qed.

Lemma find_collection_by_name_first_exact_match_witness :
  exists r,
    find_collection_by_name (outside := scripted) 1 example_manager "Services"
      [HttpOk (page [entry "c1" "Other"; entry "c2" "Services"; entry "c3" "Services"] None)]
    = (Return r, [],
       snd (get_collections (outside := scripted) 1 example_manager
              [HttpOk (page [entry "c1" "Other"; entry "c2" "Services";
                             entry "c3" "Services"] None)])) /\
    ((r = VNone /\
      forall c, In c [entry "c1" "Other"; entry "c2" "Services"; entry "c3" "Services"] ->
                ~ named "Services" c) \/
     (exists pre post,
        [entry "c1" "Other"; entry "c2" "Services"; entry "c3" "Services"]
        = pre ++ r :: post /\ named "Services" r /\
        forall c, In c pre -> ~ named "Services" c)).
Proof.
  apply (proj1 (find_collection_by_name_first_exact_match (outside := scripted))).
  vm_compute. reflexivity.
Defined.


Lemma create_collection_falls_back_once_witness :
  exit_code (outcome_of (main (outside := scripted) 1 example_args
               [two_projects; other_collection; other_collection;
                HttpError (http_status_error 400); HttpError (http_status_error 400)]))
  = Some 1%Z /\
  exists b e6 t,
    process_projects_and_collection (outside := scripted) 1 example_manager
      "svc-" "Services" None
      [two_projects; other_collection; other_collection;
       HttpError (http_status_error 400); HttpOk (created "c2" "Services"); HttpOk VNone]
    = (Return [VStr "p1"; VStr "p2"], fst (saved [VStr "p1"; VStr "p2"] None b e6), t) /\
    calls t
    = [list_projects; list_collections; list_collections]
      ++ [CallPost (VStr (collections_url (outside := scripted) example_manager))
            (headers example_manager)
            (create_payload "Services" (Some [VStr "p1"; VStr "p2"]));
          CallPost (VStr (collections_url (outside := scripted) example_manager))
            (headers example_manager) (create_payload "Services" None);
          CallPost (VStr (relationships_url (outside := scripted) example_manager (VStr "c2")))
            (headers example_manager) (attach_payload [VStr "p1"; VStr "p2"])]
      ++ snd (saved [VStr "p1"; VStr "p2"] None b e6).
Proof.
  pose proof (create_collection_falls_back_once (outside := scripted))
    as (_ & _ & Hexit & Hattach).
  split.
  - eapply Hexit; [run | run | run | run | run_matched | run | run | run].
  - eapply Hattach; [run_matched | run | run | run | run | run].
Defined.

Lemma collections_not_found_is_degraded_success_witness :
  (exists t,
      process_projects_and_collection (outside := scripted) 1 example_manager
        "svc-" "Services" None [two_projects; HttpError (http_status_error 404)]
      = (Return [VStr "p1"; VStr "p2"], [], t) /\
      In (Print "⚠️  Collections are not available for this organization (404 Not Found)") t) /\
  exit_code (outcome_of (main (outside := scripted) 1 example_args
               [two_projects; HttpError (http_status_error 404)])) = Some 0%Z.
Proof.
  eapply (collections_not_found_is_degraded_success (outside := scripted) 1 example_args);
    [run | run | run | run | run | discriminate | run | run].
Defined.

Lemma no_matching_project_exits_1_witness :
  (exists t,
      process_projects_and_collection (outside := scripted) 1 example_manager
        "svc-" "Services" None [HttpOk (page [] None)] = (Return [], [], t)) /\
  exit_code (outcome_of (main (outside := scripted) 1 example_args [HttpOk (page [] None)]))
  = Some 1%Z.
Proof.
  eapply (no_matching_project_exits_1 (outside := scripted) 1 example_args);
    [run | run | run | run | run].
Defined.

(** C7 as stated fails: two ids are extracted, the name is not among the
    collections, both creation requests fail, and the run ends with
    [SystemExit(1)] instead of returning the ids. *)
Lemma process_does_not_return_when_creation_fails :
  outcome_of (extract_project_ids (outside := scripted) 1 example_manager "svc-"
                [two_projects; other_collection; other_collection;
                 HttpError (http_status_error 400); HttpError (http_status_error 400)])
  = Return [VStr "p1"; VStr "p2"] /\
  outcome_of (process_projects_and_collection (outside := scripted) 1 example_manager
                "svc-" "Services" None
                [two_projects; other_collection; other_collection;
                 HttpError (http_status_error 400); HttpError (http_status_error 400)])
  = Raise (SystemExit 1) /\
  outcome_of (process_projects_and_collection (outside := scripted) 1 example_manager
                "svc-" "Services" None
                [two_projects; other_collection; other_collection;
                 HttpError (http_status_error 400); HttpError (http_status_error 400)])
  <> Return [VStr "p1"; VStr "p2"].
Proof.
  split; [run | split; [run | ]]. vm_compute. discriminate.
Qed.

Lemma process_returns_extracted_ids_unless_creation_is_fatal_witness :
  (exists t,
      process_projects_and_collection (outside := scripted) 1 example_manager
        "svc-" "Services" None
        [two_projects; other_collection; other_collection;
         HttpOk (created "c2" "Services"); HttpError (http_status_error 500)]
      = (Return [VStr "p1"; VStr "p2"],
         fst (saved (outside := scripted) [VStr "p1"; VStr "p2"] None
                (succeeded (HttpError (http_status_error 500))) []), t)) /\
  (exists t,
      process_projects_and_collection (outside := scripted) 1 example_manager
        "svc-" "Services" None
        [two_projects; other_collection; other_collection;
         HttpError (http_status_error 400); HttpError (http_status_error 400)]
      = (Raise (SystemExit 1), [], t)).
Proof.
  pose proof (process_returns_extracted_ids_unless_creation_is_fatal (outside := scripted))
    as (_ & Hattach & Hfatal).
  split.
  - eapply Hattach; [run_matched | run | | run].
    eexists. split; reflexivity.
  - eapply Hfatal; [run_matched | run | run].
Defined.

Lemma attach_follows_inline_creation_witness :
  exists b e5 t,
    process_projects_and_collection (outside := scripted) 1 example_manager
      "svc-" "Services" (Some "ids.txt")
      [two_projects; other_collection; other_collection;
       HttpOk (created "c2" "Services"); HttpOk VNone]
    = (Return [VStr "p1"; VStr "p2"],
       fst (saved [VStr "p1"; VStr "p2"] (Some "ids.txt") b e5), t) /\
    calls t
    = [list_projects; list_collections; list_collections]
      ++ [CallPost (VStr (collections_url (outside := scripted) example_manager))
            (headers example_manager)
            (create_payload "Services" (Some [VStr "p1"; VStr "p2"]));
          CallPost (VStr (relationships_url (outside := scripted) example_manager (VStr "c2")))
            (headers example_manager) (attach_payload [VStr "p1"; VStr "p2"])]
      ++ snd (saved [VStr "p1"; VStr "p2"] (Some "ids.txt") b e5).
Proof.
  eapply (attach_follows_inline_creation (outside := scripted));
    [run_matched | run | run | run | run].
Defined.

Lemma output_file_written_only_after_successful_attach_witness :
  (exists e6 t,
      process_projects_and_collection (outside := scripted) 1 example_manager
        "svc-" "Services" (Some "ids.txt")
        [two_projects; other_collection; other_collection;
         HttpOk (created "c2" "Services"); HttpError (http_status_error 500)]
      = (Return [VStr "p1"; VStr "p2"], e6, t) /\
      writes t = if false && truthy_opt (Some "ids.txt")
                 then [CallWrite (opt_string (Some "ids.txt"))
                         (id_lines (outside := scripted) [VStr "p1"; VStr "p2"])]
                 else []) /\
  (exists t,
      process_projects_and_collection (outside := scripted) 1 example_manager
        "svc-" "Services" (Some "ids.txt") [two_projects; HttpError (http_status_error 404)]
      = (Return [VStr "p1"; VStr "p2"], [], t) /\
      writes t = []).
Proof.
  pose proof (output_file_written_only_after_successful_attach (outside := scripted))
    as (Hdegraded & Hattach).
  split.
  - eapply Hattach; [run_matched | run | | run].
    eexists. split; reflexivity.
  - eapply Hdegraded; [run | discriminate | run].
Defined.

(** ** The further properties on examples *)

Lemma dry_run_only_prints_witness :
  exists t,
    main (outside := scripted) 1 dry_run_args [two_projects] = (Return tt, [two_projects], t) /\
    calls t = calls [] /\
    exit_code (outcome_of (main (outside := scripted) 1 dry_run_args [two_projects]))
    = Some 0%Z.
Proof.
  eapply (dry_run_only_prints (outside := scripted) 1 dry_run_args);
    [run | run | run | run].
Defined.

Lemma missing_credentials_exit_1_witness :
  exists t,
    main (outside := scripted) 1 token_only_args [two_projects]
    = (Raise (SystemExit 1), [two_projects], t) /\
    calls t = [CallReadConfig "config.json"].
Proof.
  eapply (proj2 (missing_credentials_exit_1 (outside := scripted)) 1 token_only_args).
  - right. reflexivity.
  - reflexivity.
  - left. reflexivity.
Defined.

Lemma credentials_precedence_witness :
  resolve_credentials (outside := configured) token_only_args []
  = (Return (VStr "cli-token", VStr "file-org"), [], [CallReadConfig "config.json"]).
Proof.
  apply (proj1 (proj2 (credentials_precedence (outside := configured))) token_only_args []
           [("api_token", VStr "file-token"); ("org_id", VStr "file-org")] []).
  - right. reflexivity.
  - reflexivity.
Defined.

Lemma create_collection_without_projects_witness :
  exists t,
    create_collection (outside := scripted) example_manager "Services" (Some [])
      [HttpError (http_status_error 400); HttpOk (created "c2" "Services")]
    = (Raise (SystemExit 1), [HttpOk (created "c2" "Services")], t) /\
    calls t = [CallPost (VStr (collections_url (outside := scripted) example_manager))
                 (headers example_manager) (create_payload "Services" (Some []))].
Proof.
  eapply (proj1 (proj2 (create_collection_without_projects (outside := scripted)
                          example_manager "Services" (Some []) _ _)));
    run.
  Unshelve. reflexivity.
Defined.

Lemma extract_project_ids_in_listing_order_witness :
  exists t,
    extract_project_ids (outside := scripted) 1 example_manager "svc-" [two_projects]
    = (Return [VStr "p1"; VStr "p2"], [], t) /\
    calls t = calls (snd (get_projects_by_name_prefix (outside := scripted) 1 example_manager
                            "svc-" [two_projects])) /\
    List.length [VStr "p1"; VStr "p2"]
    = List.length [entry "p1" "svc-auth"; entry "p2" "svc-db"].
Proof.
  eapply (proj1 (extract_project_ids_in_listing_order (outside := scripted)));
    [run | reflexivity].
Defined.

Lemma existing_collection_is_reused_witness :
  exists b e5 t,
    process_projects_and_collection (outside := scripted) 1 example_manager
      "svc-" "Services" None
      [two_projects; services_collection; services_collection; HttpOk VNone]
    = (Return [VStr "p1"; VStr "p2"], fst (saved [VStr "p1"; VStr "p2"] None b e5), t) /\
    calls t
    = [list_projects; list_collections; list_collections]
      ++ [CallPost (VStr (relationships_url (outside := scripted) example_manager (VStr "c1")))
            (headers example_manager) (attach_payload [VStr "p1"; VStr "p2"])]
      ++ snd (saved [VStr "p1"; VStr "p2"] None b e5) /\
    filter is_post (calls t)
    = [CallPost (VStr (relationships_url (outside := scripted) example_manager (VStr "c1")))
         (headers example_manager) (attach_payload [VStr "p1"; VStr "p2"])].
Proof.
  eapply (existing_collection_is_reused (outside := scripted)).
  - run_matched.
  - eexists. split; reflexivity.
Defined.

Lemma any_listing_failure_is_degraded_success_witness :
  (exists t,
      process_projects_and_collection (outside := scripted) 1 example_manager
        "svc-" "Services" None [two_projects; HttpError (http_status_error 401)]
      = (Return [VStr "p1"; VStr "p2"], [], t) /\
      In (Print "❌ Collections are not available for this organization.") t /\
      filter is_post (calls t) = []) /\
  exit_code (outcome_of (main (outside := scripted) 1 example_args
               [two_projects; HttpError (http_status_error 401)])) = Some 0%Z.
Proof.
  eapply (any_listing_failure_is_degraded_success (outside := scripted) 1 example_args);
    [run | run | run | run | run | discriminate | run].
Defined.

Lemma failed_lookup_leads_to_creation_witness :
  exists b e5 t,
    process_projects_and_collection (outside := scripted) 1 example_manager
      "svc-" "Services" None
      [two_projects; services_collection; HttpError connection_error;
       HttpOk (created "c2" "Services"); HttpOk VNone]
    = (Return [VStr "p1"; VStr "p2"], fst (saved [VStr "p1"; VStr "p2"] None b e5), t) /\
    calls t
    = [list_projects] ++ [list_collections] ++ [list_collections]
      ++ [CallPost (VStr (collections_url (outside := scripted) example_manager))
            (headers example_manager)
            (create_payload "Services" (Some [VStr "p1"; VStr "p2"]));
          CallPost (VStr (relationships_url (outside := scripted) example_manager (VStr "c2")))
            (headers example_manager) (attach_payload [VStr "p1"; VStr "p2"])]
      ++ snd (saved [VStr "p1"; VStr "p2"] None b e5).
Proof.
  pose proof (failed_lookup_leads_to_creation (outside := scripted) 1 example_manager
                "svc-" "Services" None
                [two_projects; services_collection; HttpError connection_error;
                 HttpOk (created "c2" "Services"); HttpOk VNone]
                [VStr "p1"; VStr "p2"]) as H.
  edestruct H as (b & e5 & t & Hrun & Hcalls);
    [run | discriminate | run | discriminate | run | run | run | run | ].
  exists b, e5, t. split; [exact Hrun | ]. rewrite Hcalls. reflexivity.
Defined.

Lemma failed_attach_still_exits_0_witness :
  (exists t,
      process_projects_and_collection (outside := scripted) 1 example_manager
        "svc-" "Services" None
        [two_projects; other_collection; other_collection;
         HttpOk (created "c2" "Services"); HttpError (http_status_error 500)]
      = (Return [VStr "p1"; VStr "p2"], [], t) /\
      writes t = []) /\
  exit_code (outcome_of (main (outside := scripted) 1 example_args
               [two_projects; other_collection; other_collection;
                HttpOk (created "c2" "Services"); HttpError (http_status_error 500)]))
  = Some 0%Z.
Proof.
  eapply (failed_attach_still_exits_0 (outside := scripted) 1 example_args);
    [run | run | run | run | run_matched | run | | run].
  eexists. split; reflexivity.
Defined.

Lemma unexpected_listing_body_is_not_degraded_witness :
  exists t,
    get_projects_by_name_prefix (outside := scripted) 1 example_manager "svc-"
      [HttpOk (VList [])] = (Raise AttributeError, [], t).
Proof.
  eapply (proj1 (unexpected_listing_body_is_not_degraded (outside := scripted)));
    [run | discriminate].
Defined.

Lemma endless_pagination_never_returns_witness :
  outcome_of (get_projects_by_name_prefix (outside := looping) 1000
                (init (outside := looping) (VStr "token-1") (VStr "org-1")) "svc-" tt)
  = Diverge /\
  outcome_of (get_collections (outside := looping) 1000
                (init (outside := looping) (VStr "token-1") (VStr "org-1")) tt)
  = Diverge /\
  outcome_of (process_projects_and_collection (outside := looping) 1000
                (init (outside := looping) (VStr "token-1") (VStr "org-1"))
                "svc-" "Services" None tt)
  = Diverge.
Proof.
  apply (endless_pagination_never_returns (outside := looping)).
  intros url e. do 4 eexists. split; [reflexivity | ].
  eexists. split; [reflexivity | ]. split; [reflexivity | ].
  eexists. split; [reflexivity | ]. split; reflexivity.
Defined.

Lemma listing_follows_next_links_verbatim_witness :
  exists t,
    get_projects_by_name_prefix (outside := scripted) 3 example_manager "svc-" three_pages
    = (Return (concat [page_1; page_2; page_3]), [], t) /\
    calls t
    = list_projects
      :: map (fun url => CallGet url (headers example_manager))
           [VStr "https://api.snyk.io/rest/page2"; VStr "https://api.snyk.io/rest/page3"].
Proof.
  apply (proj1 (listing_follows_next_links_verbatim (outside := scripted))).
  - simpl. split; [reflexivity | ]. do 2 eexists. split; [reflexivity | ].
    split.
    { eexists. split; [reflexivity | ]. split; [reflexivity | ].
      eexists. split; [reflexivity | ]. split; reflexivity. }
    split; [reflexivity | ]. do 2 eexists. split; [reflexivity | ].
    split.
    { eexists. split; [reflexivity | ]. split; [reflexivity | ].
      eexists. split; [reflexivity | ]. split; reflexivity. }
    split; [reflexivity | ]. do 2 eexists. split; [reflexivity | ].
    split; [reflexivity | ]. split; [ | reflexivity].
    eexists. split; [reflexivity | ]. split; [reflexivity | ].
    right. eexists. split; [reflexivity | ]. now left.
  - simpl. lia.
  - repeat constructor.
Defined.
